(** * FrankenMonitor: gesture monitor of the bed controller

    A shallow embedding of [server/src/8sleep/frankenMonitor.ts]:
    the alarm snooze, the gesture dispatcher, the gesture diff and the
    polling loop, written as programs of a state-and-exception monad
    over the objects the TypeScript class touches.

    Conventions.
    - JavaScript numbers that the monitor computes with (epoch
      milliseconds, temperatures, base coordinates, tap counters) are
      integers, modelled as [Z]; the minutes of a snooze are an integer or
      [NaN].
    - An [async] method is a program of [M], the run of its body when
      nothing else runs between its [await]s.  The gesture dispatcher is
      also given with its [await]s, as a program of [Async], to follow
      dispatches that the event loop interleaves.
    - Calls that leave the process (device commands, status updates, the
      base actuator, the store flush, timers, waits) are recorded in
      [trace], in program order.  Whether such a call throws is decided by
      the oracle [fails], from the calls made so far and the call itself. *)

From Stdlib Require Import ZArith Lia Strings.Byte Ascii String.
From stdpp Require Import base option list strings gmap.

Local Set Warnings "-register-all".
Local Open Scope string_scope.
Local Open Scope Z_scope.

(** ** Data model *)

(** [Side] of [db/schedulesSchema]: the two halves of the bed. *)
Inductive Side := Left | Right.

#[global] Instance Side_eq_dec : EqDecision Side.
Proof. solve_decision. Defined.

(** The property name a side indexes objects with. *)
Definition sideKey (side : Side) : string :=
  match side with Left => "left" | Right => "right" end.

(** A gesture is one of the option strings of [GestureSchema]. *)
Definition Gesture := string.

(** Values that [cbor.decode] produces and object literals of the source.
    [JNumber] holds the numbers that are integers, [JNaN] is the number
    [NaN], and [JBigInt] is a [bigint], which [cbor.decode] produces for
    an integer beyond [Number.MAX_SAFE_INTEGER]. *)
Inductive JSValue :=
| JUndefined
| JNull
| JBool (b : bool)
| JNumber (n : Z)
| JNaN
| JBigInt (n : Z)
| JString (s : string)
| JArray (items : list JSValue)
| JObject (props : list (string * JSValue)).

(** [!!v] of JavaScript. *)
Definition truthy (v : JSValue) : bool :=
  match v with
  | JUndefined | JNull => false
  | JBool b => b
  | JNumber n | JBigInt n => negb (n =? 0)
  | JNaN => false
  | JString s => negb (String.eqb s "")
  | JArray _ | JObject _ => true
  end.

(** [typeof v]. *)
Definition typeof (v : JSValue) : string :=
  match v with
  | JUndefined => "undefined"
  | JNull | JArray _ | JObject _ => "object"
  | JBool _ => "boolean"
  | JNumber _ | JNaN => "number"
  | JBigInt _ => "bigint"
  | JString _ => "string"
  end.

Fixpoint lookupProp (props : list (string * JSValue)) (key : string) : option JSValue :=
  match props with
  | [] => None
  | (k, v) :: rest => if String.eqb k key then Some v else lookupProp rest key
  end.

(** [v[key]] for a [v] that is neither [undefined] nor [null]; the keys
    read by the monitor are "left", "right", "pl", "du" and "pi", which no
    array, string, number or boolean carries. *)
Definition member (v : JSValue) (key : string) : JSValue :=
  match v with
  | JObject props => default JUndefined (lookupProp props key)
  | _ => JUndefined
  end.

(** Whether [JSON.stringify(v)] returns: it throws a [TypeError] on a
    [bigint], wherever in [v] it sits. *)
Fixpoint stringifiable (v : JSValue) : bool :=
  match v with
  | JBigInt _ => false
  | JArray items => forallb stringifiable items
  | JObject props =>
      forallb (λ kv, match kv with (_, x) => stringifiable x end) props
  | _ => true
  end.

(** A [number] argument: an integer or [NaN].  [a < b] and [a > b] are
    false when [a] is [NaN], and arithmetic on [NaN] gives [NaN]. *)
Inductive Number := Int (n : Z) | NaN.

Coercion Int : Z >-> Number.

Definition Number_lt (a : Number) (b : Z) : bool :=
  match a with Int n => n <? b | NaN => false end.

Definition Number_gt (a : Number) (b : Z) : bool :=
  match a with Int n => n >? b | NaN => false end.

Definition Number_mul (a : Number) (b : Z) : Number :=
  match a with Int n => Int (n * b) | NaN => NaN end.

Definition Number_add (a : Z) (b : Number) : Number :=
  match b with Int n => Int (a + n) | NaN => NaN end.

(** The number as a value. *)
Definition JNumberOf (a : Number) : JSValue :=
  match a with Int n => JNumber n | NaN => JNaN end.

(** The two named presets the monitor cycles through. *)
Inductive Preset := relax | flat.

#[global] Instance Preset_eq_dec : EqDecision Preset.
Proof. solve_decision. Defined.

(** An entry of the [BASE_PRESETS] table. *)
Record BasePreset := {
  head : Z;
  feet : Z;
  feedRate : Z
}.

(** [memoryDB.data.baseStatus]; [lastUpdate] holds the instant whose ISO
    rendering the source stores. *)
Record BaseStatus := {
  bs_head : Z;
  bs_feet : Z;
  isMoving : bool;
  lastUpdate : Z;
  isConfigured : bool
}.

Definition set_isMoving (b : bool) (bs : BaseStatus) : BaseStatus :=
  {| bs_head := bs_head bs; bs_feet := bs_feet bs; isMoving := b;
     lastUpdate := lastUpdate bs; isConfigured := isConfigured bs |}.

(** [memoryDB.data], of which the monitor uses [baseStatus] only. *)
Record MemoryData := {
  baseStatus : option BaseStatus
}.

(** One side of a device snapshot. [taps] is absent when the snapshot was
    fetched without gesture fields; its entries are tap counters. *)
Record SideStatus := {
  targetTemperatureF : Z;
  isAlarmVibrating : bool;
  taps : option (gmap Gesture Z)
}.

(** [DeviceStatus], with the fields the monitor reads; [coverVersion] is
    the string value of the [Version] enumeration. *)
Record DeviceStatus := {
  ds_left : SideStatus;
  ds_right : SideStatus;
  coverVersion : string
}.

(** [deviceStatus[side]]. *)
Definition sideOf (ds : DeviceStatus) (side : Side) : SideStatus :=
  match side with Left => ds_left ds | Right => ds_right ds end.

Inductive Change := increment | decrement.

(** The configured behaviour of a tap gesture, discriminated by [type]. *)
Inductive Behavior :=
| temperature (change : Change) (amount : Z)
| alarm
| base.

(** [serverStatus.status.frankenMonitor]. *)
Inductive HealthState := healthy | failed | started.

Record HealthStatus := {
  status : HealthState;
  message : string;
  timestamp : Z
}.

(** ** Effects *)

(** Calls that leave the process, as recorded in [trace]. *)
Inductive Event :=
| ExecuteFunction (command payload : string)
| UpdateDeviceStatus (request : JSValue)
| MemoryDBWrite (data : option MemoryData)
| GoToFlat
| SetPosition (p : BasePreset)
| SetTimeout (delay : Z)
| Wait (ms : Z)
| ConnectFranken
| GetDeviceStatus (withGestures : bool)
| SettingsRead.

Inductive Level := debug | info | warn | error.

(** The messages of the source's [logger] calls, with their interpolated
    values as arguments. *)
Inductive LogMsg :=
| SnoozingAlarm (side : Side) (minutes : Number)
| DecodedAlarmData (alarmData : JSValue)
| SnoozeOutOfRange (minutes : Number)
| SettingSnoozeAlarm (side : Side) (minutes : Number) (alarmPayload : JSValue)
| FailedToSnooze (reason : string)
| TemperatureChange (side : Side) (from to : Z)
| TripleTapSnoozing (side : Side)
| QuadTapCycling (preset : Preset) (target : BasePreset)
| QuadTapCompleted (preset : Preset)
| QuadTapFailed (reason : string)
| MissingDeviceStatus
| GesturesSupported (supported : bool) (version : string)
| AlreadyRunning
| Stopping
| LoopExited
| Disconnected (reason : string)
| Caught (reason : string).

(** The monitor instance, the module-level objects it shares, and the two
    locals of [frankenLoop] that live across its iterations. *)
Record World := {
  isRunning : bool;
  deviceStatus : option DeviceStatus;
  currentBasePreset : Preset;
  memoryDB_data : option MemoryData;
  settingsDB_data : Side → Gesture → Behavior;
  frankenMonitorStatus : HealthStatus;
  alarm_cbr : option (list byte);
  clock : Z;
  trace : list Event;
  logs : list (Level * LogMsg);
  hasGestures : bool;
  waitTime : Z
}.

Definition set_isRunning (b : bool) (w : World) : World :=
  {| isRunning := b; deviceStatus := deviceStatus w;
     currentBasePreset := currentBasePreset w; memoryDB_data := memoryDB_data w;
     settingsDB_data := settingsDB_data w;
     frankenMonitorStatus := frankenMonitorStatus w; alarm_cbr := alarm_cbr w;
     clock := clock w; trace := trace w; logs := logs w;
     hasGestures := hasGestures w; waitTime := waitTime w |}.

Definition set_deviceStatus (ds : option DeviceStatus) (w : World) : World :=
  {| isRunning := isRunning w; deviceStatus := ds;
     currentBasePreset := currentBasePreset w; memoryDB_data := memoryDB_data w;
     settingsDB_data := settingsDB_data w;
     frankenMonitorStatus := frankenMonitorStatus w; alarm_cbr := alarm_cbr w;
     clock := clock w; trace := trace w; logs := logs w;
     hasGestures := hasGestures w; waitTime := waitTime w |}.

Definition set_currentBasePreset (p : Preset) (w : World) : World :=
  {| isRunning := isRunning w; deviceStatus := deviceStatus w;
     currentBasePreset := p; memoryDB_data := memoryDB_data w;
     settingsDB_data := settingsDB_data w;
     frankenMonitorStatus := frankenMonitorStatus w; alarm_cbr := alarm_cbr w;
     clock := clock w; trace := trace w; logs := logs w;
     hasGestures := hasGestures w; waitTime := waitTime w |}.

Definition set_memoryDB_data (d : option MemoryData) (w : World) : World :=
  {| isRunning := isRunning w; deviceStatus := deviceStatus w;
     currentBasePreset := currentBasePreset w; memoryDB_data := d;
     settingsDB_data := settingsDB_data w;
     frankenMonitorStatus := frankenMonitorStatus w; alarm_cbr := alarm_cbr w;
     clock := clock w; trace := trace w; logs := logs w;
     hasGestures := hasGestures w; waitTime := waitTime w |}.

Definition set_settingsDB_data (s : Side → Gesture → Behavior) (w : World) : World :=
  {| isRunning := isRunning w; deviceStatus := deviceStatus w;
     currentBasePreset := currentBasePreset w; memoryDB_data := memoryDB_data w;
     settingsDB_data := s;
     frankenMonitorStatus := frankenMonitorStatus w; alarm_cbr := alarm_cbr w;
     clock := clock w; trace := trace w; logs := logs w;
     hasGestures := hasGestures w; waitTime := waitTime w |}.

Definition set_frankenMonitorStatus (h : HealthStatus) (w : World) : World :=
  {| isRunning := isRunning w; deviceStatus := deviceStatus w;
     currentBasePreset := currentBasePreset w; memoryDB_data := memoryDB_data w;
     settingsDB_data := settingsDB_data w;
     frankenMonitorStatus := h; alarm_cbr := alarm_cbr w;
     clock := clock w; trace := trace w; logs := logs w;
     hasGestures := hasGestures w; waitTime := waitTime w |}.

Definition set_clock (t : Z) (w : World) : World :=
  {| isRunning := isRunning w; deviceStatus := deviceStatus w;
     currentBasePreset := currentBasePreset w; memoryDB_data := memoryDB_data w;
     settingsDB_data := settingsDB_data w;
     frankenMonitorStatus := frankenMonitorStatus w; alarm_cbr := alarm_cbr w;
     clock := t; trace := trace w; logs := logs w;
     hasGestures := hasGestures w; waitTime := waitTime w |}.

Definition set_trace (t : list Event) (w : World) : World :=
  {| isRunning := isRunning w; deviceStatus := deviceStatus w;
     currentBasePreset := currentBasePreset w; memoryDB_data := memoryDB_data w;
     settingsDB_data := settingsDB_data w;
     frankenMonitorStatus := frankenMonitorStatus w; alarm_cbr := alarm_cbr w;
     clock := clock w; trace := t; logs := logs w;
     hasGestures := hasGestures w; waitTime := waitTime w |}.

Definition set_logs (l : list (Level * LogMsg)) (w : World) : World :=
  {| isRunning := isRunning w; deviceStatus := deviceStatus w;
     currentBasePreset := currentBasePreset w; memoryDB_data := memoryDB_data w;
     settingsDB_data := settingsDB_data w;
     frankenMonitorStatus := frankenMonitorStatus w; alarm_cbr := alarm_cbr w;
     clock := clock w; trace := trace w; logs := l;
     hasGestures := hasGestures w; waitTime := waitTime w |}.

Definition set_cadence (g : bool) (t : Z) (w : World) : World :=
  {| isRunning := isRunning w; deviceStatus := deviceStatus w;
     currentBasePreset := currentBasePreset w; memoryDB_data := memoryDB_data w;
     settingsDB_data := settingsDB_data w;
     frankenMonitorStatus := frankenMonitorStatus w; alarm_cbr := alarm_cbr w;
     clock := clock w; trace := trace w; logs := logs w;
     hasGestures := g; waitTime := t |}.

(** How a call ends: with a value, or with a thrown error.  [reason]
    identifies the error by the text of [String(error)]; the message of
    a log line says which rendering of the error the source writes. *)
Inductive Outcome (A : Type) :=
| Returned (a : A)
| Thrown (reason : string).

Arguments Returned {A} a.
Arguments Thrown {A} reason.

(** Programs: a call runs in a world and leaves a world, also when it
    throws. *)
Definition M (A : Type) : Type := World → Outcome A * World.

#[global] Instance M_ret : MRet M := λ A a w, (Returned a, w).

#[global] Instance M_bind : MBind M := λ A B f m w,
  match m w with
  | (Returned a, w') => f a w'
  | (Thrown e, w') => (Thrown e, w')
  end.

Definition throw {A} (reason : string) : M A := λ w, (Thrown reason, w).

(** [try { body } catch (error) { handler }]. *)
Definition try_catch {A} (body : M A) (handler : string → M A) : M A := λ w,
  match body w with
  | (Returned a, w') => (Returned a, w')
  | (Thrown e, w') => handler e w'
  end.

(** A call to an [async] function whose promise the caller drops, on the
    schedule where the call runs to its end before the caller goes on:
    the outcome is lost, the effects stay.  What the call does before
    its first [await] happens at this place on every schedule; the
    interleavings of the rest are the subject of [Promise] below. *)
Definition detached {A} (m : M A) : M unit := λ w, (Returned tt, (m w).2).

Definition gets {A} (f : World → A) : M A := λ w, (Returned (f w), w).

Definition modify (f : World → World) : M unit := λ w, (Returned tt, f w).

Definition logger (l : Level) (m : LogMsg) : M unit :=
  modify (λ w, set_logs (logs w ++ [(l, m)]) w).

(** [for (const x of xs) { body x }]. *)
Fixpoint for_of {A} (xs : list A) (body : A → M unit) : M unit :=
  match xs with
  | [] => mret tt
  | x :: rest => body x;; for_of rest body
  end.

(** The events a run appended to the trace of the world it started in. *)
Definition emitted (w w' : World) : list Event := drop (length (trace w)) (trace w').

(** The lines a run appended to the log of the world it started in. *)
Definition said (w w' : World) : list (Level * LogMsg) :=
  drop (length (logs w)) (logs w').

(** ** Promises

    An [async] function runs, when it is called, up to its first
    [await] and hands a promise to its caller; the event loop resumes it
    later, after whatever else ran in between, and it runs up to its next
    [await].  A promise is settled with an outcome, or pending with what
    the function does when it is resumed. *)

Inductive Promise (A : Type) : Type :=
| Settled (o : Outcome A)
| Pending (resume : World → World * Promise A).

Arguments Settled {A} o.
Arguments Pending {A} resume.

(** The body of an [async] function. *)
Definition Async (A : Type) : Type := World → World * Promise A.

(** What follows a promise in the body that awaits it. *)
Fixpoint chain {A B} (p : Promise A) (k : A → Async B) (w : World)
    : World * Promise B :=
  match p with
  | Settled (Returned a) => k a w
  | Settled (Thrown e) => (w, Settled (Thrown e))
  | Pending resume =>
      (w, Pending (λ w', let (w'', p') := resume w' in chain p' k w''))
  end.

#[global] Instance Async_ret : MRet Async := λ A a w, (w, Settled (Returned a)).

#[global] Instance Async_bind : MBind Async := λ A B k m w,
  let (w', p) := m w in chain p k w'.

(** Statements between two [await]s. *)
Definition sync {A} (m : M A) : Async A := λ w,
  let (o, w') := m w in (w', Settled o).

(** [await m]: the call is made at once, and the function is suspended
    until the event loop resumes it with the outcome of the call. *)
Definition await {A} (m : M A) : Async A := λ w,
  let (o, w') := m w in (w', Pending (λ v, (v, Settled o))).

(** [try { body } catch (error) { handler }] around [await]s. *)
Fixpoint guarded {A} (p : Promise A) (handler : string → Async A) (w : World)
    : World * Promise A :=
  match p with
  | Settled (Returned a) => (w, Settled (Returned a))
  | Settled (Thrown e) => handler e w
  | Pending resume =>
      (w, Pending (λ w', let (w'', p') := resume w' in guarded p' handler w''))
  end.

Definition try_catch_async {A} (body : Async A) (handler : string → Async A)
    : Async A := λ w,
  let (w', p) := body w in guarded p handler w'.

(** The promise resumed again and again with nothing in between. *)
Fixpoint finish {A} (p : Promise A) (w : World) : Outcome A * World :=
  match p with
  | Settled o => (o, w)
  | Pending resume => let (w', p') := resume w in finish p' w'
  end.

(** The call for which the event loop has nothing else to run. *)
Definition alone {A} (call : Async A) : M A := λ w,
  let (w', p) := call w in finish p w'.

(** The event loop: the world, and the calls in flight whose promise
    nobody holds, oldest first. *)
Definition Loop : Type := World * list (World → World * Promise unit).

(** A call whose promise the caller drops: it runs up to its first
    [await], and what is left of it joins the calls in flight. *)
Definition spawn (call : Async unit) (s : Loop) : Loop :=
  let (w', p) := call s.1 in
  (w', match p with
       | Settled _ => s.2
       | Pending resume => (s.2 ++ [resume])%list
       end).

(** The event loop resumes the [i]-th call in flight, which runs up to
    its next [await] or to its end. *)
Definition resume (i : nat) (s : Loop) : option Loop :=
  task ← s.2 !! i;
  let (w', p) := (task : World → World * Promise unit) s.1 in
  Some (w', match p with
            | Settled _ => delete i s.2
            | Pending next => <[i := next]> s.2
            end).

(** The resumptions of a schedule, one after the other. *)
Fixpoint resumed (schedule : list nat) (s : Loop) : option Loop :=
  match schedule with
  | [] => Some s
  | i :: rest => s' ← resume i s; resumed rest s'
  end.

(** ** [Buffer.toString('hex')] and its inverse *)

Definition hex_digit (n : N) : ascii :=
  match n with
  | 0 => "0" | 1 => "1" | 2 => "2" | 3 => "3" | 4 => "4" | 5 => "5"
  | 6 => "6" | 7 => "7" | 8 => "8" | 9 => "9" | 10 => "a" | 11 => "b"
  | 12 => "c" | 13 => "d" | 14 => "e" | _ => "f"
  end%N%char.

Definition hex_value (c : ascii) : option N :=
  let n := N_of_ascii c in
  if (48 <=? n)%N && (n <=? 57)%N then Some (n - 48)%N
  else if (97 <=? n)%N && (n <=? 102)%N then Some (n - 87)%N
  else None.

Fixpoint toString_hex (bytes : list byte) : string :=
  match bytes with
  | [] => ""
  | b :: rest =>
      String (hex_digit (Byte.to_N b / 16))
        (String (hex_digit (Byte.to_N b mod 16)) (toString_hex rest))
  end.

Fixpoint from_hex (s : string) : option (list byte) :=
  match s with
  | EmptyString => Some []
  | String hi (String lo rest) =>
      h ← hex_value hi;
      l ← hex_value lo;
      b ← Byte.of_N (16 * h + l);
      bytes ← from_hex rest;
      Some (b :: bytes)
  | String _ EmptyString => None
  end.

(** ** Constants and inputs *)

Definition DEFAULT_SNOOZE_MINUTES : Z := 10.
Definition MIN_SNOOZE_MINUTES : Z := 1.
Definition MAX_SNOOZE_MINUTES : Z := 10.

(** The other value of the two-valued preset mode:
    [p === 'relax' ? 'flat' : 'relax']. *)
Definition toggled (p : Preset) : Preset :=
  match p with relax => flat | flat => relax end.

(** One pass of the polling loop is driven by what happens around it:
    whether [stop()] runs during the wait of the pass or during the wait
    of its error handler, and the results of [connectFranken()],
    [getDeviceStatus(hasGestures)] and [settingsDB.read()]. *)
Record Poll := {
  stopRequested : bool;
  stopRequestedInBackoff : bool;
  connected : Outcome unit;
  snapshot : bool → Outcome DeviceStatus;
  settingsRead : Outcome (Side → Gesture → Behavior)
}.

(** ** A codec to run the monitor with

    The [cbor] package is a collaborator of the monitor.  To run
    [snoozeAlarm] on concrete blobs, [Cbor] implements the fragment of
    RFC 8949 that alarm records use: integers up to 64 bits, text
    strings, arrays, maps with text keys, the simple values [false],
    [true], [null] and [undefined], and the half-precision [NaN], all
    with definite lengths. *)

Module Cbor.

Definition byte_of (n : N) : byte := default x00 (Byte.of_N (n mod 256)).

(** Big-endian bytes of [n], [k] of them. *)
Fixpoint be_bytes (k : nat) (n : N) : list byte :=
  match k with
  | O => []
  | S k' => be_bytes k' (n / 256) ++ [byte_of n]
  end.

(** The initial byte of major type [major] and the argument [n]. *)
Definition header (major n : N) : list byte :=
  if (n <? 24)%N then [byte_of (major * 32 + n)]
  else if (n <? 256)%N then byte_of (major * 32 + 24) :: be_bytes 1 n
  else if (n <? 65536)%N then byte_of (major * 32 + 25) :: be_bytes 2 n
  else if (n <? 4294967296)%N then byte_of (major * 32 + 26) :: be_bytes 4 n
  else byte_of (major * 32 + 27) :: be_bytes 8 n.

Definition text (s : string) : list byte :=
  header 3 (N.of_nat (String.length s)) ++ list_byte_of_string s.

Fixpoint encode (v : JSValue) : list byte :=
  match v with
  | JUndefined => [byte_of 247]
  | JNull => [byte_of 246]
  | JBool b => [byte_of (if b then 245 else 244)]
  | JNumber n | JBigInt n =>
      if (0 <=? n)%Z then header 0 (Z.to_N n) else header 1 (Z.to_N (-1 - n))
  | JNaN => [byte_of 249; byte_of 126; byte_of 0]
  | JString s => text s
  | JArray items =>
      header 4 (N.of_nat (length items)) ++ flat_map encode items
  | JObject props =>
      header 5 (N.of_nat (length props))
        ++ flat_map (λ kv, match kv with (k, x) => (text k ++ encode x)%list end) props
  end.

Fixpoint of_be (bytes : list byte) (acc : N) : N :=
  match bytes with
  | [] => acc
  | b :: rest => of_be rest (acc * 256 + Byte.to_N b)
  end.

(** The argument that follows an initial byte with additional
    information [ai], and the bytes after it. *)
Definition argument (ai : N) (rest : list byte) : option (N * list byte) :=
  if (ai <? 24)%N then Some (ai, rest)
  else
    let k := if (ai =? 24)%N then Some 1%nat
             else if (ai =? 25)%N then Some 2%nat
             else if (ai =? 26)%N then Some 4%nat
             else if (ai =? 27)%N then Some 8%nat
             else None in
    n ← k;
    if decide (n ≤ length rest)%nat
    then Some (of_be (take n rest) 0%N, drop n rest)
    else None.

(** A decoded integer: a number within the safe range, a [bigint]
    beyond it. *)
Definition integer (n : Z) : JSValue :=
  if (Z.abs n <=? 9007199254740991)%Z then JNumber n else JBigInt n.

Fixpoint decode_item (fuel : nat) (bytes : list byte) : option (JSValue * list byte) :=
  match fuel, bytes with
  | S fuel', b :: rest =>
      let major := (Byte.to_N b / 32)%N in
      let ai := (Byte.to_N b mod 32)%N in
      let fix items (n : nat) (bytes : list byte) : option (list JSValue * list byte) :=
        match n with
        | O => Some ([], bytes)
        | S n' =>
            r ← decode_item fuel' bytes;
            rs ← items n' r.2;
            Some (r.1 :: rs.1, rs.2)
        end in
      let fix pairs (n : nat) (bytes : list byte)
          : option (list (string * JSValue) * list byte) :=
        match n with
        | O => Some ([], bytes)
        | S n' =>
            k ← decode_item fuel' bytes;
            match k.1 with
            | JString key =>
                r ← decode_item fuel' k.2;
                rs ← pairs n' r.2;
                Some ((key, r.1) :: rs.1, rs.2)
            | _ => None
            end
        end in
      match major with
      | 0%N => a ← argument ai rest; Some (integer (Z.of_N a.1), a.2)
      | 1%N => a ← argument ai rest; Some (integer (-1 - Z.of_N a.1), a.2)
      | 3%N =>
          a ← argument ai rest;
          if decide (N.to_nat a.1 ≤ length a.2)%nat
          then Some (JString (string_of_list_byte (take (N.to_nat a.1) a.2)),
                     drop (N.to_nat a.1) a.2)
          else None
      | 4%N =>
          a ← argument ai rest;
          r ← items (N.to_nat a.1) a.2;
          Some (JArray r.1, r.2)
      | 5%N =>
          a ← argument ai rest;
          r ← pairs (N.to_nat a.1) a.2;
          Some (JObject r.1, r.2)
      | 7%N =>
          if (ai =? 20)%N then Some (JBool false, rest)
          else if (ai =? 21)%N then Some (JBool true, rest)
          else if (ai =? 22)%N then Some (JNull, rest)
          else if (ai =? 23)%N then Some (JUndefined, rest)
          else if (ai =? 25)%N
          then match rest with
               | hi :: lo :: rest' =>
                   if (Byte.to_N hi =? 126)%N && (Byte.to_N lo =? 0)%N
                   then Some (JNaN, rest')
                   else None
               | _ => None
               end
          else None
      | _ => None
      end
  | _, _ => None
  end.

(** Decoding takes one item and accepts it when no byte is left. *)
Definition decode (bytes : list byte) : option JSValue :=
  match decode_item (S (length bytes)) bytes with
  | Some (v, []) => Some v
  | _ => None
  end.

End Cbor.

(** ** Worlds and tables to run the monitor on *)

Module Bench.

(** Every collaborator answers. *)
Definition reliable : list Event → Event → option string := λ _ _, None.

(** The store rejects every flush; every other collaborator answers. *)
Definition store_down : list Event → Event → option string := λ _ e,
  match e with
  | MemoryDBWrite _ => Some "EACCES: permission denied"
  | _ => None
  end.

(** Presets as in the specification's timing example: from flat, the
    head travels 20 and the feet 1. *)
Definition presets (p : Preset) : BasePreset :=
  match p with
  | relax => {| head := 20; feet := 1; feedRate := 50 |}
  | flat => {| head := 0; feet := 0; feedRate := 50 |}
  end.

Definition Pod3 : string := "Pod 3".

Definition gestures : list Gesture := ["doubleTap"; "tripleTap"; "quadTap"].

(** Double tap steps the temperature, up on the left and down on the
    right; triple tap snoozes; quad tap cycles the base. *)
Definition settings (side : Side) (gesture : Gesture) : Behavior :=
  if String.eqb gesture "doubleTap"
  then temperature match side with Left => increment | Right => decrement end 2
  else if String.eqb gesture "tripleTap" then alarm
  else base.

(** A persisted alarm blob with a record for each side. *)
Definition alarmData : JSValue :=
  JObject
    [("left", JObject [("pl", JNumber 50); ("du", JNumber 600);
                       ("tt", JNumber 1700000000); ("pi", JString "rise")]);
     ("right", JObject [("pl", JNumber 80); ("du", JNumber 300);
                        ("tt", JNumber 1700003600); ("pi", JString "double")])].

(** A blob that has lost the record of the right side. *)
Definition alarmDataLeftOnly : JSValue :=
  JObject
    [("left", JObject [("pl", JNumber 50); ("du", JNumber 600);
                       ("tt", JNumber 1700000000); ("pi", JString "rise")])].

Definition sideStatus (target : Z) (vibrating : bool) (counts : list (Gesture * Z))
    : SideStatus :=
  {| targetTemperatureF := target;
     isAlarmVibrating := vibrating;
     taps := Some (list_to_map counts) |}.

Definition snapshot0 : DeviceStatus :=
  {| ds_left := sideStatus 70 false [("doubleTap", 0); ("tripleTap", 0); ("quadTap", 0)];
     ds_right := sideStatus 70 false [("doubleTap", 0); ("tripleTap", 0); ("quadTap", 0)];
     coverVersion := "Pod 4" |}.

(** The same bed one poll later: a double tap on the left, a triple tap
    on the right; the device now reports another target temperature on
    the left and a vibrating alarm, and has lost the quad-tap entry of
    the left side. *)
Definition snapshot1 : DeviceStatus :=
  {| ds_left := sideStatus 90 true [("doubleTap", 1); ("tripleTap", 0)];
     ds_right := sideStatus 70 true [("doubleTap", 0); ("tripleTap", 1); ("quadTap", 0)];
     coverVersion := "Pod 4" |}.

(** A cover of the generation without gestures. *)
Definition snapshotPod3 : DeviceStatus :=
  {| ds_left := {| targetTemperatureF := 70; isAlarmVibrating := false; taps := None |};
     ds_right := {| targetTemperatureF := 70; isAlarmVibrating := false; taps := None |};
     coverVersion := Pod3 |}.

(** A running monitor that stores [snapshot0], with the base resting
    flat, at the given preset mode and with the given alarm blob. *)
Definition worldWith (preset : Preset) (blob : option (list byte)) : World :=
  {| isRunning := true;
     deviceStatus := Some snapshot0;
     currentBasePreset := preset;
     memoryDB_data := Some {| baseStatus := Some
       {| bs_head := 0; bs_feet := 0; isMoving := false;
          lastUpdate := 0; isConfigured := true |} |};
     settingsDB_data := settings;
     frankenMonitorStatus := {| status := started; message := ""; timestamp := 0 |};
     alarm_cbr := blob;
     clock := 1700000000123;
     trace := [];
     logs := [];
     hasGestures := true;
     waitTime := 2000 |}.

Definition world : World := worldWith flat (Some (Cbor.encode alarmData)).

Definition poll (next : DeviceStatus) : Poll :=
  {| stopRequested := false;
     stopRequestedInBackoff := false;
     connected := Returned tt;
     snapshot := λ _, Returned next;
     settingsRead := Returned settings |}.

(** [snapshot0] with the alarm of the right side vibrating. *)
Definition snapshotRightAlarm : DeviceStatus :=
  {| ds_left := ds_left snapshot0;
     ds_right := sideStatus 70 true [("doubleTap", 0); ("tripleTap", 0); ("quadTap", 0)];
     coverVersion := "Pod 4" |}.

(** The actuator of the base rejects every movement. *)
Definition actuator_down : list Event → Event → option string := λ _ e,
  match e with
  | GoToFlat | SetPosition _ => Some "BLE: not connected"
  | _ => None
  end.

(** A pass during which the connection to the device is refused. *)
Definition pollRefused : Poll :=
  {| stopRequested := false;
     stopRequestedInBackoff := false;
     connected := Thrown "connect ECONNREFUSED";
     snapshot := λ _, Returned snapshot0;
     settingsRead := Returned settings |}.

(** A pass during whose wait [stop()] is called. *)
Definition pollStopped : Poll :=
  {| stopRequested := true;
     stopRequestedInBackoff := false;
     connected := Returned tt;
     snapshot := λ _, Returned snapshot1;
     settingsRead := Returned settings |}.

End Bench.

(** ** The monitor *)

Create HintDb framing.
Create HintDb voicing.

Section Monitor.

(** The collaborators of the monitor that are not part of it. *)

(** [fails history call] is the error the call throws, if it throws. *)
Variable fails : list Event → Event → option string.
(** The codec of the [cbor] package; [None] stands for a decoding error. *)
Variable cbor_encode : JSValue → list byte.
Variable cbor_decode : list byte → option JSValue.
(** The table of [basePresets]. *)
Variable BASE_PRESETS : Preset → BasePreset.
(** [Version.Pod3], the generation without gestures. *)
Variable Version_Pod3 : string.
(** [GestureSchema.options]. *)
Variable GestureSchema_options : list Gesture.

(** A call that cannot throw. *)
Definition emit (e : Event) : M unit :=
  modify (λ w, set_trace (trace w ++ [e]) w).

(** A call that may throw; it is recorded either way. *)
Definition call (e : Event) : M unit := λ w,
  (match fails (trace w) e with
   | Some reason => Thrown reason
   | None => Returned tt
   end,
   set_trace (trace w ++ [e]) w).

(** [executeFunction] is neither imported nor declared in the module,
    and the module defines no global of that name: evaluating the
    identifier at lines 101 and 107 throws before a command is sent. *)
Definition executeFunction (command payload : string) : M unit :=
  throw "ReferenceError: executeFunction is not defined".

Definition updateDeviceStatus (request : JSValue) : M unit :=
  call (UpdateDeviceStatus request).

Definition memoryDB_write : M unit :=
  data ← gets memoryDB_data; call (MemoryDBWrite data).

Definition trimixBase_goToFlat : M unit := call GoToFlat.

Definition trimixBase_setPosition (p : BasePreset) : M unit := call (SetPosition p).

Definition setTimeout (delay : Z) : M unit := emit (SetTimeout delay).

(** [wait(ms)] of [promises]: resolves after [ms] milliseconds. *)
Definition wait (ms : Z) : M unit :=
  emit (Wait ms);;
  modify (λ w, set_clock (clock w + ms) w).

Definition fs_readFileSync : M (list byte) := λ w,
  match alarm_cbr w with
  | Some bytes => (Returned bytes, w)
  | None =>
      (Thrown "Error: ENOENT: no such file or directory, open '/persistent/alarm.cbr'", w)
  end.

Definition cbor_decode_or_throw (bytes : list byte) : M JSValue :=
  match cbor_decode bytes with
  | Some v => mret v
  | None => throw "Failed to decode CBOR"
  end.

(** [JSON.stringify(v)] inside a log line: the text goes to the log, the
    [TypeError] of a [bigint] to the caller. *)
Definition JSON_stringify (v : JSValue) : M unit :=
  if stringifiable v then mret tt
  else throw "TypeError: Do not know how to serialize a BigInt".

(** [v[key]], which throws on [undefined] and [null]. *)
Definition getProp (v : JSValue) (key : string) : M JSValue :=
  match v with
  | JUndefined => throw "TypeError: Cannot read properties of undefined"
  | JNull => throw "TypeError: Cannot read properties of null"
  | _ => mret (member v key)
  end.

(** [snoozeAlarm(side, minutes)], lines 52-109. *)
Definition snoozeAlarm (side : Side) (minutes : Number) : M unit :=
  logger info (SnoozingAlarm side minutes);;
  try_catch
    (alarmBytes ← fs_readFileSync;
     alarmData ← cbor_decode_or_throw alarmBytes;
     JSON_stringify alarmData;;
     logger debug (DecodedAlarmData alarmData);;
     sideData ← getProp alarmData (sideKey side);
     (if negb (truthy sideData) || negb (String.eqb (typeof sideData) "object")
      then throw ("Error: Invalid alarm data for " +:+ sideKey side +:+ " side")
      else mret tt);;
     minutes ← (if Number_lt minutes MIN_SNOOZE_MINUTES
                   || Number_gt minutes MAX_SNOOZE_MINUTES
                then logger warn (SnoozeOutOfRange minutes);; mret (Int 10)
                else mret minutes);
     now ← gets clock;
     let snoozeTime := Number_add (now / 1000) (Number_mul minutes 60) in
     let alarmPayload :=
       JObject [("pl", member sideData "pl");
                ("du", member sideData "du");
                ("tt", JNumberOf snoozeTime);
                ("pi", member sideData "pi")] in
     let cborPayload := cbor_encode alarmPayload in
     let hexPayload := toString_hex cborPayload in
     let command := match side with Left => "ALARM_LEFT" | Right => "ALARM_RIGHT" end in
     JSON_stringify alarmPayload;;
     logger info (SettingSnoozeAlarm side minutes alarmPayload);;
     executeFunction command hexPayload)
    (λ reason,
     logger error (FailedToSnooze reason);;
     executeFunction "ALARM_CLEAR" "empty").

(** The body of the timer that [processGesture] arms, lines 173-181. *)
Definition movementCompleted : M unit :=
  preset ← gets currentBasePreset;
  logger info (QuadTapCompleted preset);;
  data ← gets memoryDB_data;
  match data ≫= baseStatus with
  | Some bs =>
      modify (set_memoryDB_data (Some {| baseStatus := Some (set_isMoving false bs) |}));;
      memoryDB_write
  | None => mret tt
  end.

(** [processGesture(side, gesture)], lines 111-198. *)
Definition processGesture (side : Side) (gesture : Gesture) : M unit :=
  behavior ← gets (λ w, settingsDB_data w side gesture);
  match behavior with
  | temperature change amount =>
      stored ← gets deviceStatus;
      match stored with
      | None => throw "TypeError: Cannot read properties of undefined"
      | Some ds =>
          let currentTemperatureTarget := targetTemperatureF (sideOf ds side) in
          let newTemperatureTargetF :=
            match change with
            | increment => currentTemperatureTarget + amount
            | decrement => currentTemperatureTarget + (-1 * amount)
            end in
          logger debug (TemperatureChange side currentTemperatureTarget newTemperatureTargetF);;
          updateDeviceStatus
            (JObject [(sideKey side,
                       JObject [("targetTemperatureF", JNumber newTemperatureTargetF)])])
      end
  | alarm =>
      stored ← gets deviceStatus;
      match stored with
      | Some ds =>
          if isAlarmVibrating (ds_left ds) || isAlarmVibrating (ds_right ds)
          then logger info (TripleTapSnoozing side);; snoozeAlarm side 10
          else mret tt
      | None => mret tt
      end
  | base =>
      modify (λ w, set_currentBasePreset (toggled (currentBasePreset w)) w);;
      preset ← gets currentBasePreset;
      let targetPreset := BASE_PRESETS preset in
      logger info (QuadTapCycling preset targetPreset);;
      try_catch
        (data ← gets memoryDB_data;
         match data with
         | Some _ =>
             now ← gets clock;
             modify (set_memoryDB_data (Some {| baseStatus := Some
               {| bs_head := head targetPreset;
                  bs_feet := feet targetPreset;
                  isMoving := true;
                  lastUpdate := now;
                  isConfigured := true |} |}));;
             memoryDB_write
         | None => mret tt
         end;;
         preset ← gets currentBasePreset;
         match preset with
         | flat => trimixBase_goToFlat
         | relax =>
             trimixBase_setPosition
               {| head := head targetPreset;
                  feet := feet targetPreset;
                  feedRate := feedRate targetPreset |}
         end;;
         data ← gets memoryDB_data;
         let currentStatus := data ≫= baseStatus in
         let estimatedTime :=
           Z.max (Z.max
             (Z.abs (default 0 (bs_head <$> currentStatus) - head targetPreset) * 200)
             (Z.abs (default 0 (bs_feet <$> currentStatus) - feet targetPreset) * 200))
             3000 in
         setTimeout estimatedTime)
        (λ reason,
         logger error (QuadTapFailed reason);;
         data ← gets memoryDB_data;
         match data ≫= baseStatus with
         | Some bs =>
             modify (set_memoryDB_data (Some {| baseStatus := Some (set_isMoving false bs) |}));;
             memoryDB_write
         | None => mret tt
         end;;
         modify (λ w, set_currentBasePreset (toggled (currentBasePreset w)) w))
  end.

(** [status[side].taps?.[gesture]], [None] standing for [undefined]. *)
Definition tapEntry (ds : DeviceStatus) (side : Side) (gesture : Gesture) : option Z :=
  taps (sideOf ds side) ≫= (λ t : gmap Gesture Z, t !! gesture).

(** The comparison of line 203, [!==] on the two entries. *)
Definition tapChanged (next : DeviceStatus) (stored : option DeviceStatus)
    (side : Side) (gesture : Gesture) : bool :=
  bool_decide (tapEntry next side gesture ≠ stored ≫= (λ ds, tapEntry ds side gesture)).

(** [processGesture(side, gesture)] with its [await]s, lines 111-198:
    the same statements, cut where the source suspends. *)
Definition processGesture_async (side : Side) (gesture : Gesture) : Async unit :=
  behavior ← sync (gets (λ w, settingsDB_data w side gesture));
  match behavior with
  | temperature change amount =>
      stored ← sync (gets deviceStatus);
      match stored with
      | None => sync (throw "TypeError: Cannot read properties of undefined")
      | Some ds =>
          let currentTemperatureTarget := targetTemperatureF (sideOf ds side) in
          let newTemperatureTargetF :=
            match change with
            | increment => currentTemperatureTarget + amount
            | decrement => currentTemperatureTarget + (-1 * amount)
            end in
          sync (logger debug
                  (TemperatureChange side currentTemperatureTarget newTemperatureTargetF));;
          await (updateDeviceStatus
                   (JObject [(sideKey side,
                              JObject [("targetTemperatureF",
                                        JNumber newTemperatureTargetF)])]))
      end
  | alarm =>
      stored ← sync (gets deviceStatus);
      match stored with
      | Some ds =>
          if isAlarmVibrating (ds_left ds) || isAlarmVibrating (ds_right ds)
          then sync (logger info (TripleTapSnoozing side));;
               await (snoozeAlarm side 10)
          else mret tt
      | None => mret tt
      end
  | base =>
      sync (modify (λ w, set_currentBasePreset (toggled (currentBasePreset w)) w));;
      preset ← sync (gets currentBasePreset);
      let targetPreset := BASE_PRESETS preset in
      sync (logger info (QuadTapCycling preset targetPreset));;
      try_catch_async
        (data ← sync (gets memoryDB_data);
         match data with
         | Some _ =>
             now ← sync (gets clock);
             sync (modify (set_memoryDB_data (Some {| baseStatus := Some
               {| bs_head := head targetPreset;
                  bs_feet := feet targetPreset;
                  isMoving := true;
                  lastUpdate := now;
                  isConfigured := true |} |})));;
             await memoryDB_write
         | None => mret tt
         end;;
         preset ← sync (gets currentBasePreset);
         match preset with
         | flat => await trimixBase_goToFlat
         | relax =>
             await (trimixBase_setPosition
               {| head := head targetPreset;
                  feet := feet targetPreset;
                  feedRate := feedRate targetPreset |})
         end;;
         data ← sync (gets memoryDB_data);
         let currentStatus := data ≫= baseStatus in
         let estimatedTime :=
           Z.max (Z.max
             (Z.abs (default 0 (bs_head <$> currentStatus) - head targetPreset) * 200)
             (Z.abs (default 0 (bs_feet <$> currentStatus) - feet targetPreset) * 200))
             3000 in
         sync (setTimeout estimatedTime))
        (λ reason,
         sync (logger error (QuadTapFailed reason));;
         data ← sync (gets memoryDB_data);
         match data ≫= baseStatus with
         | Some bs =>
             sync (modify (set_memoryDB_data
                             (Some {| baseStatus := Some (set_isMoving false bs) |})));;
             await memoryDB_write
         | None => mret tt
         end;;
         sync (modify (λ w, set_currentBasePreset (toggled (currentBasePreset w)) w)))
  end.

(** [processGesturesForSide(nextDeviceStatus, side)], lines 200-210. *)
Definition processGesturesForSide (nextDeviceStatus : DeviceStatus) (side : Side) : M unit :=
  try_catch
    (for_of GestureSchema_options (λ gesture,
       stored ← gets deviceStatus;
       if tapChanged nextDeviceStatus stored side gesture
       then detached (processGesture side gesture)
       else mret tt))
    (λ reason, logger error (Caught reason)).

(** [processGestures(nextDeviceStatus)], lines 212-220. *)
Definition processGestures (nextDeviceStatus : DeviceStatus) : M unit :=
  stored ← gets deviceStatus;
  match stored with
  | None => logger warn MissingDeviceStatus
  | Some _ =>
      processGesturesForSide nextDeviceStatus Left;;
      processGesturesForSide nextDeviceStatus Right
  end.

(** ** The polling loop *)

Definition lift {A} (o : Outcome A) : M A := λ w, (o, w).

Definition connectFranken (p : Poll) : M unit :=
  emit ConnectFranken;; lift (connected p).

Definition getDeviceStatus (p : Poll) (withGestures : bool) : M DeviceStatus :=
  emit (GetDeviceStatus withGestures);; lift (snapshot p withGestures).

Definition settingsDB_read (p : Poll) : M unit :=
  emit SettingsRead;;
  data ← lift (settingsRead p);
  modify (set_settingsDB_data data).

(** [stop()], lines 46-50. *)
Definition stop : M unit :=
  running ← gets isRunning;
  if negb running then mret tt
  else logger debug Stopping;; modify (set_isRunning false).

(** The two assignments that open [frankenLoop] (lines 226-227) and every
    pass of its loop (lines 238-239). *)
Definition deriveCadence : M unit :=
  stored ← gets deviceStatus;
  match stored with
  | None => throw "TypeError: Cannot read properties of undefined"
  | Some ds =>
      let hasGestures := negb (String.eqb (coverVersion ds) Version_Pod3) in
      let waitTime := if hasGestures then 2000 else 60000 in
      modify (set_cadence hasGestures waitTime)
  end.

Definition publish (s : HealthState) (msg : string) : M unit :=
  now ← gets clock;
  modify (set_frankenMonitorStatus {| status := s; message := msg; timestamp := now |}).

(** Lines 242-251: fetch the next snapshot, refresh the settings,
    dispatch the gestures, store the snapshot, publish health. *)
Definition pollFetch (p : Poll) : M bool :=
  connectFranken p;;
  gestures ← gets hasGestures;
  nextDeviceStatus ← getDeviceStatus p gestures;
  settingsDB_read p;;
  (if (gestures : bool) then detached (processGestures nextDeviceStatus) else mret tt);;
  modify (set_deviceStatus (Some nextDeviceStatus));;
  publish healthy "";;
  mret true.

(** The body of the inner [while], lines 238-251; [false] is its [break]. *)
Definition pollOnce (p : Poll) : M bool :=
  deriveCadence;;
  ms ← gets waitTime;
  wait ms;;
  (if stopRequested p then stop else mret tt);;
  running ← gets isRunning;
  if negb running then mret false else pollFetch p.

(** The [catch] of the outer [while], lines 253-259: [String(error)] is
    published, [error.message] logged. *)
Definition pollFailed (p : Poll) (reason : string) : M bool :=
  publish failed reason;;
  logger error (Disconnected reason);;
  ms ← gets waitTime;
  wait ms;;
  (if stopRequestedInBackoff p then stop else mret tt);;
  mret true.

(** One turn of the outer [while]: a pass under the [try], the handler
    when the pass throws. *)
Definition pollTurn (p : Poll) : M bool :=
  try_catch (pollOnce p) (pollFailed p).

(** The two nested [while (this.isRunning)] loops, one turn per element
    of [polls]; a run that outlives [polls] is observed no further. *)
Fixpoint polling (polls : list Poll) : M unit :=
  running ← gets isRunning;
  if negb running then logger debug LoopExited
  else match polls with
       | [] => mret tt
       | p :: rest => pollTurn p;; polling rest
       end.

(** [frankenLoop()], lines 223-262, from the point where
    [connectFranken()] has been called and the loop is resumed with its
    outcome. *)
Definition frankenLoop_connected (first : Poll) (polls : list Poll) : M unit :=
  lift (connected first);;
  probe ← getDeviceStatus first false;
  modify (set_deviceStatus (Some probe));;
  deriveCadence;;
  gestures ← gets hasGestures;
  (if (gestures : bool)
   then full ← getDeviceStatus first true;
        modify (set_deviceStatus (Some full));;
        logger debug (GesturesSupported true (coverVersion full))
   else logger debug (GesturesSupported false (coverVersion probe)));;
  polling polls.

(** [frankenLoop()], lines 223-262. *)
Definition frankenLoop (first : Poll) (polls : list Poll) : M unit :=
  emit ConnectFranken;; frankenLoop_connected first polls.



(** ** Vocabulary of the statements *)

(** The test of line 65, read positively. *)
Definition structuredRecord (v : JSValue) : bool :=
  truthy v && String.eqb (typeof v) "object".

(** The error of the unbound identifier at lines 101 and 107. *)
Definition unbound : string := "ReferenceError: executeFunction is not defined".

(** The minutes that reach the trigger time, lines 70-77. *)
Definition effectiveMinutes (minutes : Number) : Number :=
  if Number_lt minutes 1 || Number_gt minutes 10 then Int 10 else minutes.

(** The payload built at lines 80-89. *)
Definition alarmPayload (sideData : JSValue) (w : World) (minutes : Number) : JSValue :=
  JObject [("pl", member sideData "pl");
           ("du", member sideData "du");
           ("tt", JNumberOf (Number_add (clock w / 1000)
                               (Number_mul (effectiveMinutes minutes) 60)));
           ("pi", member sideData "pi")].

(** What lines 53-100 write to the log when the blob yields a record. *)
Definition snoozeLog (side : Side) (minutes : Number) (alarmData payload : JSValue)
    : list (Level * LogMsg) :=
  [(info, SnoozingAlarm side minutes); (debug, DecodedAlarmData alarmData)]
  ++ (if Number_lt minutes 1 || Number_gt minutes 10
      then [(warn, SnoozeOutOfRange minutes)] else [])
  ++ [(info, SettingSnoozeAlarm side (effectiveMinutes minutes) payload)].

(** The world without its log. *)
Definition quiet (w : World) : World := set_logs [] w.

(** The error a recorded call ended with, if any; timers, waits and the
    calls of the polling loop are not subject to the oracle. *)
Definition rejected (before : list Event) (e : Event) : option string :=
  match e with
  | ExecuteFunction _ _ | UpdateDeviceStatus _ | MemoryDBWrite _
  | GoToFlat | SetPosition _ => fails before e
  | _ => None
  end.

(** Every call in [evs] was answered when made after [before]. *)
Fixpoint answered (before : list Event) (evs : list Event) : Prop :=
  match evs with
  | [] => True
  | e :: rest => rejected before e = None ∧ answered (before ++ [e]) rest
  end.

(** The estimate as the specification words it, from the position of the
    base before the movement. *)
Definition travelEstimate (before : BaseStatus) (target : BasePreset) : Z :=
  Z.max (Z.max (Z.abs (bs_head before - head target) * 200)
               (Z.abs (bs_feet before - feet target) * 200))
        3000.

(** The actuator commands. *)
Definition isMovement (e : Event) : bool :=
  match e with GoToFlat | SetPosition _ => true | _ => false end.

(** The request a temperature gesture makes, lines 113-123. *)
Definition temperatureRequest (side : Side) (target : Z) : JSValue :=
  JObject [(sideKey side, JObject [("targetTemperatureF", JNumber target)])].

(** The actuator command that moves the base to preset [p]. *)
Definition movement (p : Preset) : Event :=
  match p with flat => GoToFlat | relax => SetPosition (BASE_PRESETS p) end.

(** An alarm is vibrating on some side of the stored snapshot. *)
Definition vibrating (stored : option DeviceStatus) : bool :=
  match stored with
  | Some ds => isAlarmVibrating (ds_left ds) || isAlarmVibrating (ds_right ds)
  | None => false
  end.

(** The calls a gesture dispatch can make, given the stored snapshot. *)
Definition dispatched (stored : option DeviceStatus) (e : Event) : Prop :=
  match e with
  | ExecuteFunction _ _ => vibrating stored = true
  | UpdateDeviceStatus _ | MemoryDBWrite _ | GoToFlat | SetPosition _
  | SetTimeout _ => True
  | Wait _ | ConnectFranken | GetDeviceStatus _ | SettingsRead => False
  end.

(** [w'] continues [w]: same snapshot, settings, run flag, loop locals
    and clock, and a trace extended by events that satisfy [P]. *)
Definition appends (P : Event → Prop) (w w' : World) : Prop :=
  deviceStatus w' = deviceStatus w
  ∧ settingsDB_data w' = settingsDB_data w
  ∧ isRunning w' = isRunning w
  ∧ hasGestures w' = hasGestures w
  ∧ waitTime w' = waitTime w
  ∧ clock w' = clock w
  ∧ ∃ evs, trace w' = (trace w ++ evs)%list ∧ Forall P evs.

(** Every call but [wait]. *)
Definition notWait (e : Event) : Prop :=
  match e with Wait _ => False | _ => True end.

(** [w'] continues [w] as far as the loop is concerned: same loop locals,
    and a trace extended by events that satisfy [P]. *)
Definition grows (P : Event → Prop) (w w' : World) : Prop :=
  hasGestures w' = hasGestures w
  ∧ waitTime w' = waitTime w
  ∧ ∃ evs, trace w' = (trace w ++ evs)%list ∧ Forall P evs.

(** [m] relates the world it leaves to the world it starts in by [R],
    from every world that satisfies [Pre]. *)
Definition keeps (Pre : World → Prop) (R : World → World → Prop) {A} (m : M A)
    : Prop :=
  ∀ w, Pre w → R w (m w).2.

(** Started with [stored] as its snapshot, [m] only appends events that
    satisfy [P]. *)
Definition framed {A} (stored : option DeviceStatus) (P : Event → Prop) (m : M A)
    : Prop :=
  keeps (λ w, deviceStatus w = stored) (appends P) m.

(** [m] leaves the loop locals alone and only appends events that
    satisfy [P]. *)
Definition paced {A} (P : Event → Prop) (m : M A) : Prop :=
  keeps (λ _, True) (grows P) m.

(** The lines with which a snooze announces itself, lines 126 and 53. *)
Definition isSnoozing (m : LogMsg) : Prop :=
  match m with TripleTapSnoozing _ | SnoozingAlarm _ _ => True | _ => False end.

(** [w'] continues [w] with the same snapshot and settings, and a log
    extended by lines whose messages satisfy [P]. *)
Definition speaks (P : LogMsg → Prop) (w w' : World) : Prop :=
  deviceStatus w' = deviceStatus w
  ∧ settingsDB_data w' = settingsDB_data w
  ∧ ∃ lines, logs w' = (logs w ++ lines)%list ∧ Forall (λ line, P line.2) lines.

(** Started with [stored] as its snapshot, [m] only logs messages that
    satisfy [P]. *)
Definition voiced {A} (stored : option DeviceStatus) (P : LogMsg → Prop) (m : M A)
    : Prop :=
  keeps (λ w, deviceStatus w = stored) (speaks P) m.

(** The device commands. *)
Definition isCommand (e : Event) : Prop :=
  match e with ExecuteFunction _ _ => True | _ => False end.

(** The gestures of [side] whose tap entry differs between [next] and
    the stored snapshot, in the order of [GestureSchema.options]. *)
Definition changedGestures (next : DeviceStatus) (stored : option DeviceStatus)
    (side : Side) : list Gesture :=
  List.filter (tapChanged next stored side) GestureSchema_options.

(** The wait that a stored snapshot calls for. *)
Definition cadence (ds : DeviceStatus) : Z :=
  if decide (coverVersion ds = Version_Pod3) then 60000 else 2000.

(** ** Symbolic execution *)

(** Unfolds the operations of [M], then projects the fields of the worlds
    that the setters built. *)
Ltac run :=
  cbv beta iota zeta delta
    [mbind M_bind mret M_ret try_catch detached gets modify logger throw emit
     call lift];
  cbn beta iota zeta delta
    [fst snd negb set_trace set_logs set_isRunning set_deviceStatus
     set_currentBasePreset set_memoryDB_data set_settingsDB_data
     set_frankenMonitorStatus set_clock set_cadence
     isRunning deviceStatus currentBasePreset memoryDB_data settingsDB_data
     frankenMonitorStatus alarm_cbr clock trace logs hasGestures waitTime].

(** Worlds with the same fields are the same. *)
Lemma World_eq (w1 w2 : World) :
  isRunning w1 = isRunning w2 →
  deviceStatus w1 = deviceStatus w2 →
  currentBasePreset w1 = currentBasePreset w2 →
  memoryDB_data w1 = memoryDB_data w2 →
  settingsDB_data w1 = settingsDB_data w2 →
  frankenMonitorStatus w1 = frankenMonitorStatus w2 →
  alarm_cbr w1 = alarm_cbr w2 →
  clock w1 = clock w2 →
  trace w1 = trace w2 →
  logs w1 = logs w2 →
  hasGestures w1 = hasGestures w2 →
  waitTime w1 = waitTime w2 →
  w1 = w2.
Proof. destruct w1, w2; cbn; intros; subst; reflexivity. Qed.

(** Two worlds built by setters from the same world are compared field by
    field, the appended lists re-associated to the right. *)
Ltac same_world :=
  apply World_eq;
  cbn beta iota zeta delta
    [fst snd set_trace set_logs set_isRunning set_deviceStatus
     set_currentBasePreset set_memoryDB_data set_settingsDB_data
     set_frankenMonitorStatus set_clock set_cadence
     isRunning deviceStatus currentBasePreset memoryDB_data settingsDB_data
     frankenMonitorStatus alarm_cbr clock trace logs hasGestures waitTime];
  rewrite <- ?app_assoc; reflexivity.

(** Symbolic execution on a world given by its fields: every step leaves
    a record of the fields. *)
Ltac exec :=
  cbv beta iota zeta delta
    [mbind M_bind mret M_ret try_catch detached gets modify logger throw emit
     call lift fst snd toggled option_bind baseStatus
     set_trace set_logs set_isRunning set_deviceStatus
     set_currentBasePreset set_memoryDB_data set_settingsDB_data
     set_frankenMonitorStatus set_clock set_cadence
     isRunning deviceStatus currentBasePreset memoryDB_data settingsDB_data
     frankenMonitorStatus alarm_cbr clock trace logs hasGestures waitTime];
  cbn beta iota zeta delta
    [option_fmap option_map fmap default id set_isMoving
     bs_head bs_feet isMoving lastUpdate isConfigured head feet feedRate].

(** Case analysis on every answer of the oracle that the goal mentions. *)
Ltac answers :=
  repeat match goal with
         | |- context [fails ?t ?e] => destruct (fails t e) eqn:?
         end.

(** ** Hexadecimal text *)

Lemma hex_byte_roundtrip (b : byte) :
  (h ← hex_value (hex_digit (Byte.to_N b / 16));
   l ← hex_value (hex_digit (Byte.to_N b mod 16));
   Byte.of_N (16 * h + l)) = Some b.
Proof. destruct b; reflexivity. Qed.

Lemma from_hex_toString_hex (bytes : list byte) :
  from_hex (toString_hex bytes) = Some bytes.
Proof.
  induction bytes as [|b rest IH]; [reflexivity|].
  cbn [toString_hex from_hex].
  pose proof (hex_byte_roundtrip b) as Hb.
  destruct (hex_value (hex_digit (Byte.to_N b / 16))) as [h|]; [|discriminate].
  destruct (hex_value (hex_digit (Byte.to_N b mod 16))) as [l|]; [|discriminate].
  cbn in Hb |- *. rewrite Hb. cbn. rewrite IH. reflexivity.
Qed.

(** ** The snooze *)

Lemma emitted_app w w' evs : trace w' = (trace w ++ evs)%list → emitted w w' = evs.
Proof. intros H. unfold emitted. rewrite H. apply drop_app_length. Qed.

Lemma said_app w w' lines : logs w' = (logs w ++ lines)%list → said w w' = lines.
Proof. unfold said. intros ->. apply drop_app_length. Qed.

Lemma structuredRecord_getProp alarmData key w :
  structuredRecord (member alarmData key) = true →
  getProp alarmData key w = (Returned (member alarmData key), w).
Proof. destruct alarmData; cbn; intros; try discriminate; reflexivity. Qed.

Lemma stringifiable_lookupProp props key v :
  forallb (λ kv : string * JSValue, match kv with (_, x) => stringifiable x end)
    props = true →
  lookupProp props key = Some v → stringifiable v = true.
Proof.
  induction props as [|[k x] props IH]; cbn [forallb lookupProp]; [discriminate|].
  intros [Hx Hrest]%andb_true_iff.
  destruct (String.eqb k key); [intros [= <-]; exact Hx | apply IH, Hrest].
Qed.

(** What [JSON.stringify] accepts, it accepts the members of. *)
Lemma stringifiable_member v key :
  stringifiable v = true → stringifiable (member v key) = true.
Proof.
  destruct v as [| | | | | | |items|props]; try reflexivity. cbn [member stringifiable].
  intros Hprops. destruct (lookupProp props key) as [x|] eqn:Hkey; [|reflexivity].
  exact (stringifiable_lookupProp props key x Hprops Hkey).
Qed.

Lemma stringifiable_JNumberOf x : stringifiable (JNumberOf x) = true.
Proof. destruct x; reflexivity. Qed.

(** Case analysis on every test that the goal branches on. *)
Ltac branches :=
  repeat match goal with
         | |- context [if ?c then _ else _] => destruct c eqn:?
         end.

(** Every snooze ends in the handler, and the handler in the error of the
    unbound identifier: the world changes in its log only. *)
Lemma snoozeAlarm_rejects side minutes w :
  ∃ lines,
    snoozeAlarm side minutes w
    = (Thrown unbound, set_logs (logs w ++ lines) w)
    ∧ lines !! 0%nat = Some (info, SnoozingAlarm side minutes)
    ∧ ∃ reason, last lines = Some (error, FailedToSnooze reason).
Proof.
  unfold snoozeAlarm, fs_readFileSync, cbor_decode_or_throw, JSON_stringify,
    getProp, executeFunction, unbound.
  destruct (alarm_cbr w) as [bytes|] eqn:Hfile.
  2: { eexists. run. rewrite Hfile. run.
       split; [f_equal; same_world|]. split; [reflexivity | eexists; reflexivity]. }
  destruct (cbor_decode bytes) as [alarmData|] eqn:Hdec.
  2: { eexists. run. rewrite Hfile, Hdec. run.
       split; [f_equal; same_world|]. split; [reflexivity | eexists; reflexivity]. }
  destruct (stringifiable alarmData) eqn:Hjson.
  2: { eexists. run. rewrite Hfile, Hdec. run. rewrite Hjson. run.
       split; [f_equal; same_world|]. split; [reflexivity | eexists; reflexivity]. }
  destruct alarmData;
    run; rewrite Hfile, Hdec; run; rewrite Hjson; run; branches; run;
    eexists; (split; [f_equal; same_world|]);
    (split; [reflexivity | eexists; reflexivity]).
Qed.

(** With a record in the blob, the payload is built and logged, and the
    send throws. *)
Lemma snooze_with_record side minutes w bytes alarmData :
  alarm_cbr w = Some bytes →
  cbor_decode bytes = Some alarmData →
  stringifiable alarmData = true →
  structuredRecord (member alarmData (sideKey side)) = true →
  let payload := alarmPayload (member alarmData (sideKey side)) w minutes in
  snoozeAlarm side minutes w
  = (Thrown unbound,
     set_logs (logs w ++ snoozeLog side minutes alarmData payload
                      ++ [(error, FailedToSnooze unbound)]) w).
Proof.
  intros Hfile Hdec Hjson Hrec payload. subst payload.
  pose proof (stringifiable_member alarmData (sideKey side) Hjson) as Hside.
  unfold snoozeAlarm, fs_readFileSync, cbor_decode_or_throw, JSON_stringify,
    executeFunction, alarmPayload, snoozeLog, effectiveMinutes, unbound.
  run. rewrite Hfile, Hdec. run. rewrite Hjson. run.
  rewrite (structuredRecord_getProp _ _ _ Hrec).
  unfold structuredRecord in Hrec. apply andb_true_iff in Hrec as [-> ->].
  unfold MIN_SNOOZE_MINUTES, MAX_SNOOZE_MINUTES.
  cbn [negb orb]. run.
  destruct (Number_lt minutes 1 || Number_gt minutes 10); run;
    match goal with
    | |- context [stringifiable (JObject ?l)] =>
        assert (stringifiable (JObject l) = true) as ->
          by (cbn [stringifiable forallb];
              rewrite !stringifiable_member, ?stringifiable_JNumberOf by exact Hside;
              reflexivity)
    end;
    run; f_equal; same_world.
Qed.

(** C2: no call of [snoozeAlarm] issues the alarm-clear command.  The
    handler of lines 102-108 is entered and logs the failure, and its
    [executeFunction] throws the error of the unbound identifier, which
    leaves [snoozeAlarm]; no call is made. *)
Theorem snoozeAlarm_clear_never_sent side minutes w :
  let r := snoozeAlarm side minutes w in
  r.1 = Thrown "ReferenceError: executeFunction is not defined"
  ∧ emitted w r.2 = []
  ∧ ∃ reason, last (said w r.2) = Some (error, FailedToSnooze reason).
Proof.
  cbv zeta.
  destruct (snoozeAlarm_rejects side minutes w) as (lines & -> & _ & reason & Hlast).
  cbn [fst snd]. split; [reflexivity|]. split.
  - apply emitted_app. cbn [trace set_logs]. symmetry. apply app_nil_r.
  - exists reason. erewrite said_app by reflexivity. exact Hlast.
Qed.

(** An integer outside 1..10 is snoozed as 10 is: the warning is logged,
    and the payload that is built and logged is the one of 10. *)
Lemma snoozeAlarm_out_of_range_integer side (minutes : Z) w bytes alarmData :
  minutes < 1 ∨ 10 < minutes →
  alarm_cbr w = Some bytes →
  cbor_decode bytes = Some alarmData →
  stringifiable alarmData = true →
  structuredRecord (member alarmData (sideKey side)) = true →
  let r := snoozeAlarm side minutes w in
  let r10 := snoozeAlarm side 10 w in
  r.1 = r10.1
  ∧ quiet r.2 = quiet r10.2
  ∧ (warn, SnoozeOutOfRange minutes) ∈ logs r.2
  ∧ ∀ payload, (info, SettingSnoozeAlarm side 10 payload) ∈ logs r10.2 →
               (info, SettingSnoozeAlarm side 10 payload) ∈ logs r.2.
Proof.
  intros Hout Hfile Hdec Hjson Hrec. cbv zeta.
  rewrite (snooze_with_record side minutes w bytes alarmData Hfile Hdec Hjson Hrec),
    (snooze_with_record side 10 w bytes alarmData Hfile Hdec Hjson Hrec).
  cbv zeta. cbn [fst snd]. split; [reflexivity|]. split; [unfold quiet; same_world|].
  unfold snoozeLog, alarmPayload, effectiveMinutes, Number_lt, Number_gt.
  replace ((minutes <? 1) || (minutes >? 10)) with true by lia.
  replace ((10 <? 1) || (10 >? 10)) with false by lia.
  cbn [logs set_logs app]. split.
  - rewrite !elem_of_app, !elem_of_cons. tauto.
  - intros payload [Hin | Hin]%elem_of_app; apply elem_of_app;
      [left; exact Hin | right].
    rewrite !elem_of_cons in Hin. rewrite !elem_of_cons.
    destruct Hin as [[=] | [[=] | [Hin | Hin]]]; auto.
Qed.

(** ** The dispatcher *)


Lemma processGesture_temperature side gesture change amount ds w :
  settingsDB_data w side gesture = temperature change amount →
  deviceStatus w = Some ds →
  trace (processGesture side gesture w).2
  = (trace w ++
     [UpdateDeviceStatus
        (temperatureRequest side
           match change with
           | increment => targetTemperatureF (sideOf ds side) + amount
           | decrement => targetTemperatureF (sideOf ds side) - amount
           end)])%list.
Proof.
  intros Hcfg Hds.
  unfold processGesture, updateDeviceStatus, temperatureRequest. run.
  rewrite Hcfg, Hds. run.
  destruct change; cbn; repeat f_equal; lia.
Qed.

(** C7: a temperature gesture requests, for the gesturing side only,
    the stored target temperature plus the configured amount for
    [increment] and minus it for [decrement]. *)
Theorem temperature_gesture_request side gesture change amount ds w :
  settingsDB_data w side gesture = temperature change amount →
  deviceStatus w = Some ds →
  let current := targetTemperatureF (sideOf ds side) in
  let requested :=
    match change with
    | increment => current + amount
    | decrement => current - amount
    end in
  emitted w (processGesture side gesture w).2
  = [UpdateDeviceStatus
       (JObject [(sideKey side, JObject [("targetTemperatureF", JNumber requested)])])].
Proof.
  intros Hcfg Hds current requested. apply emitted_app.
  apply (processGesture_temperature side gesture change amount ds w Hcfg Hds).
Qed.

(** An alarm gesture while the stored snapshot reports a vibrating alarm
    runs the snooze with the fixed ten minutes. *)
Lemma processGesture_alarm side gesture ds w :
  settingsDB_data w side gesture = alarm →
  deviceStatus w = Some ds →
  isAlarmVibrating (ds_left ds) || isAlarmVibrating (ds_right ds) = true →
  processGesture side gesture w
  = snoozeAlarm side 10
      (set_logs (logs w ++ [(info, TripleTapSnoozing side)]) w).
Proof.
  intros Hcfg Hds Hv. unfold processGesture. run. rewrite Hcfg, Hds. run.
  rewrite Hv. run. reflexivity.
Qed.

(** It announces the snooze of the gesturing side, rejects with the error
    of the unbound identifier and makes no call. *)
Lemma processGesture_alarm_said side gesture ds w :
  settingsDB_data w side gesture = alarm →
  deviceStatus w = Some ds →
  isAlarmVibrating (ds_left ds) || isAlarmVibrating (ds_right ds) = true →
  let r := processGesture side gesture w in
  r.1 = Thrown unbound
  ∧ trace r.2 = trace w
  ∧ ∃ rest, said w r.2
            = (info, TripleTapSnoozing side) :: (info, SnoozingAlarm side 10) :: rest.
Proof.
  intros Hcfg Hds Hv. cbv zeta.
  rewrite (processGesture_alarm side gesture ds w Hcfg Hds Hv).
  destruct (snoozeAlarm_rejects side 10
              (set_logs (logs w ++ [(info, TripleTapSnoozing side)]) w))
    as (lines & -> & Hfirst & _).
  cbn [fst snd trace logs set_logs]. split; [reflexivity|]. split; [reflexivity|].
  destruct lines as [|line rest]; [discriminate|]. injection Hfirst as ->.
  exists rest. apply said_app. rewrite <- app_assoc. reflexivity.
Qed.

Lemma preset_eta (p : BasePreset) :
  {| head := head p; feet := feet p; feedRate := feedRate p |} = p.
Proof. destruct p; reflexivity. Qed.

Lemma answered_app before evs evs' :
  answered before (evs ++ evs')
  ↔ answered before evs ∧ answered (before ++ evs) evs'.
Proof.
  revert before. induction evs as [|e evs IH]; intros before; cbn.
  - rewrite app_nil_r. tauto.
  - rewrite IH, <- app_assoc. cbn. tauto.
Qed.

(** One base gesture: what it appends to the trace, and where it leaves
    the monitor when every call it made was answered. *)
Lemma base_gesture_run side gesture w :
  settingsDB_data w side gesture = base →
  let r := processGesture side gesture w in
  ∃ evs,
    trace r.2 = (trace w ++ evs)%list
    ∧ settingsDB_data r.2 = settingsDB_data w
    ∧ (answered (trace w) evs →
       r.1 = Returned tt
       ∧ currentBasePreset r.2 = toggled (currentBasePreset w)
       ∧ filter isMovement evs = [movement (toggled (currentBasePreset w))]).
Proof.
  destruct w as [running stored preset data cfg health blob now tr said g ms].
  cbn [settingsDB_data trace currentBasePreset]. intros Hcfg. cbv zeta.
  unfold processGesture, memoryDB_write, trimixBase_goToFlat,
    trimixBase_setPosition, setTimeout, movement.
  exec. rewrite Hcfg.
  destruct (BASE_PRESETS relax) as [h f r] eqn:Hrelax.
  destruct preset, data as [data|]; exec; answers;
    (eexists; split; [rewrite <- ?app_assoc; reflexivity|]);
    (split; [reflexivity|]);
    cbn; intros Hans; try (exfalso; intuition congruence);
    rewrite ?Hrelax; done.
Qed.

(** Two base gestures of which the second is dispatched when the first
    has run to its end, every call of which is answered, bring
    [currentBasePreset] back to where it started and issue one
    go-to-flat command and one set-position command, the flat one first
    when the mode starts as [relax], second when it starts as [flat]. *)
Lemma base_gesture_pair side1 gesture1 side2 gesture2 w :
  settingsDB_data w side1 gesture1 = base →
  settingsDB_data w side2 gesture2 = base →
  let w1 := (processGesture side1 gesture1 w).2 in
  let w2 := (processGesture side2 gesture2 w1).2 in
  answered (trace w) (emitted w w2) →
  currentBasePreset w2 = currentBasePreset w
  ∧ filter isMovement (emitted w w2)
    = match currentBasePreset w with
      | relax => [GoToFlat; SetPosition (BASE_PRESETS relax)]
      | flat => [SetPosition (BASE_PRESETS relax); GoToFlat]
      end.
Proof.
  intros Hcfg1 Hcfg2 w1 w2. subst w1 w2.
  destruct (base_gesture_run side1 gesture1 w Hcfg1) as (evs1 & Ht1 & Hs1 & H1).
  cbv zeta in *. set (w1 := (processGesture side1 gesture1 w).2) in *.
  rewrite <- Hs1 in Hcfg2.
  destruct (base_gesture_run side2 gesture2 w1 Hcfg2) as (evs2 & Ht2 & _ & H2).
  cbv zeta in *. set (w2 := (processGesture side2 gesture2 w1).2) in *.
  assert (emitted w w2 = evs1 ++ evs2)%list as ->
    by (apply emitted_app; rewrite Ht2, Ht1, app_assoc; reflexivity).
  rewrite answered_app, <- Ht1. intros [Ha1 Ha2].
  destruct (H1 Ha1) as (_ & Hp1 & Hm1), (H2 Ha2) as (_ & Hp2 & Hm2).
  rewrite Hp2, Hp1, filter_app, Hm1, Hm2, Hp1.
  destruct (currentBasePreset w); split; reflexivity.
Qed.

(** With [memoryDB.data] present and every call answered, a base gesture
    flushes the target position, moves the base and arms the timer for
    the floor, from whatever position the base starts. *)
Lemma base_gesture_answered side gesture w data :
  settingsDB_data w side gesture = base →
  memoryDB_data w = Some data →
  let evs := emitted w (processGesture side gesture w).2 in
  let target := BASE_PRESETS (toggled (currentBasePreset w)) in
  answered (trace w) evs →
  evs = [MemoryDBWrite (Some {| baseStatus := Some
           {| bs_head := head target; bs_feet := feet target; isMoving := true;
              lastUpdate := clock w; isConfigured := true |} |});
         movement (toggled (currentBasePreset w));
         SetTimeout 3000].
Proof.
  destruct w as [running stored preset memory cfg health blob now tr said g ms].
  cbn [settingsDB_data memoryDB_data trace currentBasePreset clock].
  intros Hcfg ->. cbv zeta.
  unfold processGesture, memoryDB_write, trimixBase_goToFlat,
    trimixBase_setPosition, setTimeout, movement.
  exec. rewrite Hcfg.
  destruct preset; exec; rewrite !Z.sub_diag, ?preset_eta;
    change (Z.max (Z.max (Z.abs 0 * 200) (Z.abs 0 * 200)) 3000) with 3000;
    answers;
    (erewrite emitted_app by (cbn [trace]; rewrite <- ?app_assoc; reflexivity));
    cbn; intros Hans; try (exfalso; intuition congruence); reflexivity.
Qed.

(** A base gesture one of whose calls was rejected: no timer is armed and
    [isMoving] is not left set; the preset mode is restored when the
    handler returns, and stays toggled when the handler throws. *)
Lemma base_gesture_rollback side gesture w :
  settingsDB_data w side gesture = base →
  let r := processGesture side gesture w in
  ¬ answered (trace w) (emitted w r.2) →
  (∀ delay, SetTimeout delay ∉ emitted w r.2)
  ∧ isMoving <$> (memoryDB_data r.2 ≫= baseStatus) ≠ Some true
  ∧ (r.1 = Returned tt → currentBasePreset r.2 = currentBasePreset w)
  ∧ (∀ reason, r.1 = Thrown reason →
       currentBasePreset r.2 = toggled (currentBasePreset w)).
Proof.
  destruct w as [running stored preset memory cfg health blob now tr said g ms].
  cbn [settingsDB_data memoryDB_data trace currentBasePreset]. intros Hcfg.
  cbv zeta.
  unfold processGesture, memoryDB_write, trimixBase_goToFlat,
    trimixBase_setPosition, setTimeout.
  exec. rewrite Hcfg.
  destruct preset, memory as [[[bs|]]|]; exec; answers;
    (erewrite emitted_app by (cbn [trace]; rewrite <- ?app_assoc; reflexivity));
    cbn; intros Hans; try (exfalso; apply Hans; intuition congruence);
    (split; [intros delay Hin;
             rewrite ?elem_of_cons, elem_of_nil in Hin; intuition discriminate|]);
    (split; [cbn; congruence|]); split; intros; congruence.
Qed.

(** ** Dispatches in flight *)

(** Symbolic execution of promises and of the event loop. *)
Ltac arun :=
  cbv beta iota zeta delta
    [mbind M_bind mret M_ret Async_bind Async_ret sync await try_catch_async
     chain guarded finish alone spawn resume
     try_catch detached gets modify logger throw emit call lift];
  cbn beta iota zeta delta
    [fst snd negb app lookup list_lookup delete list_delete insert list_insert
     option_bind resumed toggled baseStatus option_fmap option_map fmap default id
     set_isMoving bs_head bs_feet isMoving lastUpdate isConfigured
     set_trace set_logs set_isRunning set_deviceStatus
     set_currentBasePreset set_memoryDB_data set_settingsDB_data
     set_frankenMonitorStatus set_clock set_cadence
     isRunning deviceStatus currentBasePreset memoryDB_data settingsDB_data
     frankenMonitorStatus alarm_cbr clock trace logs hasGestures waitTime].

(** With nothing else to run, the event loop takes a dispatch through
    its [await]s as [processGesture] does. *)
Lemma processGesture_alone side gesture w :
  alone (processGesture_async side gesture) w = processGesture side gesture w.
Proof.
  unfold processGesture_async, processGesture, updateDeviceStatus, memoryDB_write,
    trimixBase_goToFlat, trimixBase_setPosition, setTimeout.
  destruct w as [running stored preset memory cfg health blob now tr lines g ms].
  arun. destruct (cfg side gesture) as [change amount| |]; arun.
  - destruct stored as [ds|]; arun; answers; reflexivity.
  - destruct stored as [ds|]; arun; [|reflexivity].
    destruct (isAlarmVibrating (ds_left ds) || isAlarmVibrating (ds_right ds));
      arun; [|reflexivity].
    destruct (snoozeAlarm side 10 _) as [o w']. reflexivity.
  - destruct preset, memory as [[[bs|]]|];
      arun; answers; arun; answers; arun; answers; reflexivity.
Qed.

(** C6: two base gestures that a pass dispatches one after the other,
    as lines 204 and 218-219 do without awaiting the first, with
    [memoryDB.data] present and every call answered.  Both toggle the
    mode before either has moved the base, and line 155 reads the mode
    again after the flush: whatever the order in which the event loop
    resumes them, the mode is back where it started and both commands are
    those of the starting mode, go-to-flat twice or set-position twice. *)
Theorem base_gestures_in_flight side1 gesture1 side2 gesture2 w data schedule s :
  settingsDB_data w side1 gesture1 = base →
  settingsDB_data w side2 gesture2 = base →
  memoryDB_data w = Some data →
  (∀ history e, fails history e = None) →
  resumed schedule
    (spawn (processGesture_async side2 gesture2)
       (spawn (processGesture_async side1 gesture1) (w, []))) = Some s →
  s.2 = [] →
  currentBasePreset s.1 = currentBasePreset w
  ∧ match currentBasePreset w with
    | flat => filter isMovement (emitted w s.1) = [GoToFlat; GoToFlat]
    | relax =>
        filter isMovement (emitted w s.1)
        ≡ₚ [SetPosition (BASE_PRESETS flat); SetPosition (BASE_PRESETS relax)]
    end.
Proof.
  destruct w as [running stored preset memory cfg health blob now tr lines g ms].
  cbn [settingsDB_data memoryDB_data currentBasePreset].
  intros Hcfg1 Hcfg2 -> Hok.
  unfold processGesture_async, memoryDB_write, trimixBase_goToFlat,
    trimixBase_setPosition, setTimeout.
  destruct preset; arun; rewrite Hcfg1; arun; rewrite ?Hok; arun;
    rewrite Hcfg2; arun; rewrite ?Hok; arun.
  all: destruct schedule as [|[|[|i1]] schedule]; arun; rewrite ?Hok; arun;
         try discriminate; [intros [= <-] [=] | |].
  all: destruct schedule as [|[|[|i2]] schedule]; arun; rewrite ?Hok; arun;
         try discriminate; try (intros [= <-] [=]).
  all: destruct schedule as [|[|[|i3]] schedule]; arun; rewrite ?Hok; arun;
         try discriminate; try (intros [= <-] [=]).
  all: destruct schedule as [|[|[|i4]] schedule]; arun; rewrite ?Hok; arun;
         try discriminate; try (intros [= <-] [=]).
  all: destruct schedule as [|i5 schedule]; arun; try discriminate.
  all: intros [= <-] _; cbn [fst snd currentBasePreset trace];
         (split; [reflexivity|]);
         (erewrite emitted_app by (cbn [trace]; rewrite <- ?app_assoc; reflexivity));
         cbn; rewrite ?preset_eta; first [reflexivity | apply perm_swap].
Qed.

(** ** What a dispatch leaves alone *)

Lemma appends_refl P w : appends P w w.
Proof.
  repeat split. exists []. split; [symmetry; apply app_nil_r | constructor].
Qed.

Lemma appends_trans P w1 w2 w3 :
  appends P w1 w2 → appends P w2 w3 → appends P w1 w3.
Proof.
  intros (? & ? & ? & ? & ? & ? & evs & Ht & HP)
         (? & ? & ? & ? & ? & ? & evs' & Ht' & HP').
  repeat split; try congruence.
  exists (evs ++ evs')%list. split.
  - rewrite Ht', Ht, app_assoc. reflexivity.
  - apply Forall_app; split; assumption.
Qed.

Lemma appends_weaken (P Q : Event → Prop) w w' :
  (∀ e, P e → Q e) → appends P w w' → appends Q w w'.
Proof.
  intros HPQ (? & ? & ? & ? & ? & ? & evs & Ht & HP).
  repeat split; try assumption. exists evs. split; [assumption|].
  eapply Forall_impl; eassumption.
Qed.

Lemma grows_refl P w : grows P w w.
Proof.
  repeat split. exists []. split; [symmetry; apply app_nil_r | constructor].
Qed.

Lemma grows_trans P w1 w2 w3 : grows P w1 w2 → grows P w2 w3 → grows P w1 w3.
Proof.
  intros (? & ? & evs & Ht & HP) (? & ? & evs' & Ht' & HP').
  repeat split; try congruence.
  exists (evs ++ evs')%list. split.
  - rewrite Ht', Ht, app_assoc. reflexivity.
  - apply Forall_app; split; assumption.
Qed.

Lemma appends_grows (P Q : Event → Prop) w w' :
  (∀ e, P e → Q e) → appends P w w' → grows Q w w'.
Proof.
  intros HPQ (_ & _ & _ & ? & ? & _ & evs & Ht & HP).
  repeat split; try assumption.
  exists evs. split; [exact Ht|]. eapply Forall_impl; eassumption.
Qed.

(** Programs that relate the world they leave to the world they start
    in, for a relation [R] that is reflexive and transitive, and for
    starting worlds [Pre] that [R] does not leave. *)
Section Keeping.
Context (Pre : World → Prop) (R : World → World → Prop).
Hypothesis R_refl : ∀ w, R w w.
Hypothesis R_trans : ∀ w1 w2 w3, R w1 w2 → R w2 w3 → R w1 w3.
Hypothesis Pre_R : ∀ w w', Pre w → R w w' → Pre w'.
Hypothesis R_logs : ∀ w l, R w (set_logs l w).

Lemma keeps_ret {A} (a : A) : keeps Pre R (mret a).
Proof. intros w _. apply R_refl. Qed.

Lemma keeps_throw {A} reason : keeps Pre R (throw reason : M A).
Proof. intros w _. apply R_refl. Qed.

Lemma keeps_lift {A} (o : Outcome A) : keeps Pre R (lift o).
Proof. intros w _. apply R_refl. Qed.

Lemma keeps_gets {A} (f : World → A) : keeps Pre R (gets f).
Proof. intros w _. apply R_refl. Qed.

Lemma keeps_logger l msg : keeps Pre R (logger l msg).
Proof. intros w _. apply R_logs. Qed.

Lemma keeps_bind {A B} (m : M A) (k : A → M B) :
  keeps Pre R m → (∀ a, keeps Pre R (k a)) → keeps Pre R (m ≫= k).
Proof.
  intros Hm Hk w Hw. specialize (Hm w Hw). run.
  destruct (m w) as [[a|reason] w1]; [|exact Hm].
  eapply R_trans; [exact Hm|]. apply Hk. eapply Pre_R; eassumption.
Qed.

Lemma keeps_try_catch {A} (m : M A) (h : string → M A) :
  keeps Pre R m → (∀ reason, keeps Pre R (h reason)) → keeps Pre R (try_catch m h).
Proof.
  intros Hm Hh w Hw. specialize (Hm w Hw). run.
  destruct (m w) as [[a|reason] w1]; [exact Hm|].
  eapply R_trans; [exact Hm|]. apply Hh. eapply Pre_R; eassumption.
Qed.

Lemma keeps_detached {A} (m : M A) : keeps Pre R m → keeps Pre R (detached m).
Proof. intros Hm w Hw. exact (Hm w Hw). Qed.

Lemma keeps_for_of {A} (xs : list A) (body : A → M unit) :
  (∀ x, keeps Pre R (body x)) → keeps Pre R (for_of xs body).
Proof.
  intros Hbody. induction xs as [|x xs IH]; cbn [for_of].
  - apply keeps_ret.
  - apply keeps_bind; [apply Hbody | intros _; exact IH].
Qed.

End Keeping.

Section Framing.
Context (stored : option DeviceStatus) (P : Event → Prop).

Lemma appends_stored w w' :
  deviceStatus w = stored → appends P w w' → deviceStatus w' = stored.
Proof. intros Hw (Hd & _). congruence. Qed.

Lemma appends_logs w l : appends P w (set_logs l w).
Proof. repeat split. exists []. split; [symmetry; apply app_nil_r | constructor]. Qed.

Lemma framed_ret {A} (a : A) : framed stored P (mret a).
Proof. apply keeps_ret, appends_refl. Qed.

Lemma framed_throw {A} reason : framed stored P (throw reason : M A).
Proof. apply keeps_throw, appends_refl. Qed.

Lemma framed_gets {A} (f : World → A) : framed stored P (gets f).
Proof. apply keeps_gets, appends_refl. Qed.

Lemma framed_logger l msg : framed stored P (logger l msg).
Proof. apply keeps_logger, appends_logs. Qed.

Lemma framed_bind {A B} (m : M A) (k : A → M B) :
  framed stored P m → (∀ a, framed stored P (k a)) → framed stored P (m ≫= k).
Proof. apply keeps_bind; [apply appends_trans | apply appends_stored]. Qed.

Lemma framed_stored {B} (k : option DeviceStatus → M B) :
  framed stored P (k stored) → framed stored P (gets deviceStatus ≫= k).
Proof. intros Hk w Hw. run. rewrite Hw. apply Hk, Hw. Qed.

Lemma framed_try_catch {A} (m : M A) (h : string → M A) :
  framed stored P m → (∀ reason, framed stored P (h reason)) →
  framed stored P (try_catch m h).
Proof. apply keeps_try_catch; [apply appends_trans | apply appends_stored]. Qed.

Lemma framed_detached {A} (m : M A) : framed stored P m → framed stored P (detached m).
Proof. apply keeps_detached. Qed.

Lemma framed_for_of {A} (xs : list A) (body : A → M unit) :
  (∀ x, framed stored P (body x)) → framed stored P (for_of xs body).
Proof.
  apply keeps_for_of; [apply appends_refl | apply appends_trans | apply appends_stored].
Qed.

Lemma framed_call e : P e → framed stored P (call e).
Proof.
  intros HP w _. unfold call.
  repeat split; exists [e]; (split; [reflexivity|]); repeat constructor; exact HP.
Qed.

Lemma framed_emit e : P e → framed stored P (emit e).
Proof.
  intros HP w _. repeat split; exists [e]; (split; [reflexivity|]);
    repeat constructor; exact HP.
Qed.

Lemma framed_set_currentBasePreset (f : World → Preset) :
  framed stored P (modify (λ w, set_currentBasePreset (f w) w)).
Proof. intros w _. repeat split. exists []. split; [symmetry; apply app_nil_r | constructor]. Qed.

Lemma framed_set_memoryDB_data d :
  framed stored P (modify (set_memoryDB_data d)).
Proof. intros w _. repeat split. exists []. split; [symmetry; apply app_nil_r | constructor]. Qed.

End Framing.

Lemma framed_weaken {A} stored (P Q : Event → Prop) (m : M A) :
  (∀ e, P e → Q e) → framed stored P m → framed stored Q m.
Proof. intros HPQ Hm w Hw. eapply appends_weaken; [exact HPQ | exact (Hm w Hw)]. Qed.

#[local] Hint Resolve framed_ret framed_throw framed_gets framed_logger
  framed_detached framed_set_currentBasePreset framed_set_memoryDB_data : framing.

Ltac framing :=
  repeat first
    [ progress eauto with framing
    | apply framed_bind; [|intros ?]
    | apply framed_try_catch; [|intros ?]
    | apply framed_call; cbn
    | apply framed_emit; cbn
    | match goal with
      | |- framed _ _ (match ?x with _ => _ end) => destruct x
      end ].

Lemma framed_snoozeAlarm stored side minutes :
  framed stored isCommand (snoozeAlarm side minutes).
Proof.
  intros w _. destruct (snoozeAlarm_rejects side minutes w) as (lines & -> & _).
  apply appends_logs.
Qed.

Lemma framed_processGesture stored side gesture :
  framed stored (dispatched stored) (processGesture side gesture).
Proof.
  unfold processGesture, updateDeviceStatus, memoryDB_write,
    trimixBase_goToFlat, trimixBase_setPosition, setTimeout.
  apply framed_bind; [framing|intros behavior].
  destruct behavior as [change amount | |].
  - apply framed_stored. destruct stored; framing; exact I.
  - apply framed_stored. destruct stored as [ds|]; [|framing].
    destruct (isAlarmVibrating (ds_left ds) || isAlarmVibrating (ds_right ds)) eqn:Hv;
      [|framing].
    apply framed_bind; [framing|intros _].
    eapply framed_weaken; [|apply framed_snoozeAlarm].
    intros [] He; cbn in *; try contradiction. exact Hv.
  - framing; exact I.
Qed.

(** ** What a dispatch says *)

Lemma speaks_refl P w : speaks P w w.
Proof.
  repeat split. exists []. split; [symmetry; apply app_nil_r | constructor].
Qed.

Lemma speaks_trans P w1 w2 w3 : speaks P w1 w2 → speaks P w2 w3 → speaks P w1 w3.
Proof.
  intros (? & ? & lines & Hl & HP) (? & ? & lines' & Hl' & HP').
  repeat split; try congruence.
  exists (lines ++ lines')%list. split.
  - rewrite Hl', Hl, app_assoc. reflexivity.
  - apply Forall_app; split; assumption.
Qed.

Lemma speaks_weaken (P Q : LogMsg → Prop) w w' :
  (∀ m, P m → Q m) → speaks P w w' → speaks Q w w'.
Proof.
  intros HPQ (? & ? & lines & Hl & HP).
  repeat split; try assumption. exists lines. split; [assumption|].
  eapply Forall_impl; [exact HP|]. intros line. apply HPQ.
Qed.

Section Voicing.
Context (stored : option DeviceStatus) (P : LogMsg → Prop).

Lemma speaks_stored w w' :
  deviceStatus w = stored → speaks P w w' → deviceStatus w' = stored.
Proof. intros Hw (Hd & _). congruence. Qed.

Lemma voiced_ret {A} (a : A) : voiced stored P (mret a).
Proof. apply keeps_ret, speaks_refl. Qed.

Lemma voiced_throw {A} reason : voiced stored P (throw reason : M A).
Proof. apply keeps_throw, speaks_refl. Qed.

Lemma voiced_gets {A} (f : World → A) : voiced stored P (gets f).
Proof. apply keeps_gets, speaks_refl. Qed.

Lemma voiced_logger l msg : P msg → voiced stored P (logger l msg).
Proof.
  intros HP w _. repeat split. exists [(l, msg)].
  split; [reflexivity | repeat constructor; exact HP].
Qed.

Lemma voiced_bind {A B} (m : M A) (k : A → M B) :
  voiced stored P m → (∀ a, voiced stored P (k a)) → voiced stored P (m ≫= k).
Proof. apply keeps_bind; [apply speaks_trans | apply speaks_stored]. Qed.

Lemma voiced_stored {B} (k : option DeviceStatus → M B) :
  voiced stored P (k stored) → voiced stored P (gets deviceStatus ≫= k).
Proof. intros Hk w Hw. run. rewrite Hw. apply Hk, Hw. Qed.

Lemma voiced_try_catch {A} (m : M A) (h : string → M A) :
  voiced stored P m → (∀ reason, voiced stored P (h reason)) →
  voiced stored P (try_catch m h).
Proof. apply keeps_try_catch; [apply speaks_trans | apply speaks_stored]. Qed.

Lemma voiced_detached {A} (m : M A) : voiced stored P m → voiced stored P (detached m).
Proof. apply keeps_detached. Qed.

Lemma voiced_for_of {A} (xs : list A) (body : A → M unit) :
  (∀ x, voiced stored P (body x)) → voiced stored P (for_of xs body).
Proof.
  apply keeps_for_of; [apply speaks_refl | apply speaks_trans | apply speaks_stored].
Qed.

Lemma voiced_call e : voiced stored P (call e).
Proof. intros w _. apply (speaks_refl P w). Qed.

Lemma voiced_emit e : voiced stored P (emit e).
Proof. intros w _. apply (speaks_refl P w). Qed.

Lemma voiced_set_currentBasePreset (f : World → Preset) :
  voiced stored P (modify (λ w, set_currentBasePreset (f w) w)).
Proof. intros w _. apply (speaks_refl P w). Qed.

Lemma voiced_set_memoryDB_data d :
  voiced stored P (modify (set_memoryDB_data d)).
Proof. intros w _. apply (speaks_refl P w). Qed.

End Voicing.

Lemma voiced_weaken {A} stored (P Q : LogMsg → Prop) (m : M A) :
  (∀ msg, P msg → Q msg) → voiced stored P m → voiced stored Q m.
Proof. intros HPQ Hm w Hw. eapply speaks_weaken; [exact HPQ | exact (Hm w Hw)]. Qed.

#[local] Hint Resolve voiced_ret voiced_throw voiced_gets voiced_detached
  voiced_call voiced_emit voiced_set_currentBasePreset voiced_set_memoryDB_data
  : voicing.

Ltac voicing :=
  repeat first
    [ progress eauto with voicing
    | apply voiced_bind; [|intros ?]
    | apply voiced_try_catch; [|intros ?]
    | apply voiced_logger; cbn
    | match goal with
      | |- voiced _ _ (match ?x with _ => _ end) => destruct x
      end ].

Lemma voiced_snoozeAlarm stored side minutes :
  voiced stored (λ _, True) (snoozeAlarm side minutes).
Proof.
  intros w _. destruct (snoozeAlarm_rejects side minutes w) as (lines & -> & _).
  repeat split. exists lines. split; [reflexivity|].
  apply Forall_forall. intros; exact I.
Qed.

(** A dispatch announces a snooze only when the stored snapshot reports
    a vibrating alarm. *)
Lemma voiced_processGesture stored side gesture :
  voiced stored (λ msg, isSnoozing msg → vibrating stored = true)
    (processGesture side gesture).
Proof.
  unfold processGesture, updateDeviceStatus, memoryDB_write,
    trimixBase_goToFlat, trimixBase_setPosition, setTimeout.
  apply voiced_bind; [voicing|intros behavior].
  destruct behavior as [change amount | |].
  - apply voiced_stored. destruct stored; voicing; contradiction.
  - apply voiced_stored. destruct stored as [ds|]; [|voicing].
    destruct (isAlarmVibrating (ds_left ds) || isAlarmVibrating (ds_right ds)) eqn:Hv;
      [|voicing].
    apply voiced_bind; [voicing; intros _; exact Hv|intros _].
    eapply voiced_weaken; [|apply voiced_snoozeAlarm].
    intros msg _ _. exact Hv.
  - voicing; contradiction.
Qed.

(** ** The gesture diff *)

Lemma for_of_cons_detached {A B} (x : A) (xs : list A) (f : A → M B) w :
  for_of (x :: xs) (λ y, detached (f y)) w
  = for_of xs (λ y, detached (f y)) (f x w).2.
Proof. reflexivity. Qed.

Lemma for_of_detached_returns {A} (xs : list A) (body : A → M unit) w :
  (for_of xs (λ x, detached (body x)) w).1 = Returned tt.
Proof.
  revert w. induction xs as [|x xs IH]; intros w; [reflexivity|].
  rewrite for_of_cons_detached. apply IH.
Qed.

(** The loop of lines 202-206 dispatches the changed gestures, each once,
    in order. *)
Lemma for_of_changed next side (xs : list Gesture) w :
  for_of xs (λ gesture,
     stored ← gets deviceStatus;
     if tapChanged next stored side gesture
     then detached (processGesture side gesture)
     else mret tt) w
  = for_of (List.filter (tapChanged next (deviceStatus w) side) xs)
      (λ gesture, detached (processGesture side gesture)) w.
Proof.
  revert w. induction xs as [|x xs IH]; intros w; [reflexivity|].
  cbn [for_of List.filter]. run.
  destruct (tapChanged next (deviceStatus w) side x) eqn:Hx.
  - cbn [for_of]. run. rewrite IH.
    destruct (framed_processGesture (deviceStatus w) side x w eq_refl) as (-> & _).
    reflexivity.
  - run. apply IH.
Qed.

Lemma processGesturesForSide_dispatches next side w :
  processGesturesForSide next side w
  = for_of (changedGestures next (deviceStatus w) side)
      (λ gesture, detached (processGesture side gesture)) w.
Proof.
  unfold processGesturesForSide, changedGestures, try_catch.
  rewrite for_of_changed.
  pose proof (for_of_detached_returns
    (List.filter (tapChanged next (deviceStatus w) side) GestureSchema_options)
    (processGesture side) w) as Hr.
  destruct (for_of _ _ w) as [[[]|reason] w']; [reflexivity|discriminate].
Qed.

Lemma count_occ_filter_NoDup (f : Gesture → bool) (xs : list Gesture) g :
  NoDup xs → g ∈ xs →
  count_occ string_dec (List.filter f xs) g = if f g then 1%nat else 0%nat.
Proof.
  induction 1 as [|x xs Hx Hnd IH]; intros Hin.
  - inversion Hin.
  - cbn [List.filter]. apply elem_of_cons in Hin as [-> | Hin].
    + assert (count_occ string_dec (List.filter f xs) x = 0%nat) as H0.
      { apply count_occ_not_In. intros [Hi _]%filter_In.
        apply Hx, list_elem_of_In, Hi. }
      destruct (f x); cbn; [destruct (string_dec x x); [|done]|]; lia.
    + assert (x ≠ g) by (intros ->; contradiction).
      destruct (f x); cbn; [destruct (string_dec x g); [done|]|]; auto.
Qed.

Lemma filter_none {A} (f : A → bool) (xs : list A) :
  (∀ x, x ∈ xs → f x = false) → List.filter f xs = [].
Proof.
  induction xs as [|x xs IH]; intros Hf; [reflexivity|].
  cbn [List.filter]. rewrite (Hf x) by left. apply IH.
  intros y Hy. apply Hf. right. exact Hy.
Qed.

(** C9: for a side, the gestures dispatched are those of
    [GestureSchema.options] whose tap entry differs between the next and
    the stored snapshot, each once, a missing entry differing from a
    present one; when no entry differs nothing is dispatched. *)
Theorem gesture_diff_reports_once next prev side gesture w :
  NoDup GestureSchema_options →
  gesture ∈ GestureSchema_options →
  deviceStatus w = Some prev →
  let reported := changedGestures next (Some prev) side in
  processGesturesForSide next side w
  = for_of reported (λ g, detached (processGesture side g)) w
  ∧ count_occ string_dec reported gesture
    = (if decide (tapEntry next side gesture ≠ tapEntry prev side gesture)
       then 1 else 0)%nat
  ∧ ((∀ g, g ∈ GestureSchema_options → tapEntry next side g = tapEntry prev side g) →
     reported = [] ∧ processGesturesForSide next side w = (Returned tt, w)).
Proof.
  intros Hnd Hin Hprev reported. subst reported.
  rewrite processGesturesForSide_dispatches, Hprev.
  split; [reflexivity|]. split.
  - unfold changedGestures. rewrite (count_occ_filter_NoDup _ _ _ Hnd Hin).
    unfold tapChanged. cbn [mbind option_bind].
    destruct (decide (tapEntry next side gesture ≠ tapEntry prev side gesture)).
    + rewrite bool_decide_eq_true_2; done.
    + rewrite bool_decide_eq_false_2; done.
  - intros Hsame.
    assert (changedGestures next (Some prev) side = []) as ->; [|done].
    apply filter_none. intros g Hg. unfold tapChanged. cbn [mbind option_bind].
    apply bool_decide_eq_false_2. intros Hne. apply Hne, Hsame, Hg.
Qed.

Lemma framed_processGesturesForSide stored next side :
  framed stored (dispatched stored) (processGesturesForSide next side).
Proof.
  unfold processGesturesForSide.
  apply framed_try_catch; [|intros reason; framing].
  apply framed_for_of. intros gesture. apply framed_stored.
  destruct (tapChanged next stored side gesture); [|framing].
  apply framed_detached, framed_processGesture.
Qed.

Lemma framed_processGestures stored next :
  framed stored (dispatched stored) (processGestures next).
Proof.
  unfold processGestures. apply framed_stored.
  destruct stored; [|framing].
  apply framed_bind; [|intros _]; apply framed_processGesturesForSide.
Qed.

(** What one of the detached calls of a [for_of] appends is among the
    events the whole loop appends. *)
Lemma for_of_emitted {A B} stored cfg P (Q : Event → Prop)
    (xs : list A) (f : A → M B) x :
  (∀ y, framed stored P (f y)) →
  (∀ w, deviceStatus w = stored → settingsDB_data w = cfg →
        Exists Q (emitted w (f x w).2)) →
  x ∈ xs →
  ∀ w, deviceStatus w = stored → settingsDB_data w = cfg →
       Exists Q (emitted w (for_of xs (λ y, detached (f y)) w).2).
Proof.
  intros Hframed Hx. induction xs as [|y xs IH]; intros Hin w Hd Hs.
  - inversion Hin.
  - rewrite for_of_cons_detached.
    pose proof (Hframed y w Hd) as (Hd1 & Hs1 & _ & _ & _ & _ & evs1 & Ht1 & _).
    pose proof (framed_for_of stored P xs (λ y, detached (f y))
                  (λ y, framed_detached stored P (f y) (Hframed y))
                  (f y w).2 ltac:(congruence))
      as (_ & _ & _ & _ & _ & _ & evs2 & Ht2 & _).
    erewrite emitted_app by (rewrite Ht2, Ht1, <- app_assoc; reflexivity).
    apply Exists_app.
    apply elem_of_cons in Hin as [-> | Hin].
    + left. specialize (Hx w Hd Hs).
      erewrite emitted_app in Hx by exact Ht1. exact Hx.
    + right.
      specialize (IH Hin (f y w).2 ltac:(congruence) ltac:(congruence)).
      erewrite emitted_app in IH by exact Ht2. exact IH.
Qed.

(** What the dispatch of a changed gesture appends is among the events
    of the round that diffs both sides. *)
Lemma processGestures_emitted (Q : Event → Prop) next prev cfg side gesture w :
  deviceStatus w = Some prev →
  settingsDB_data w = cfg →
  gesture ∈ GestureSchema_options →
  tapChanged next (Some prev) side gesture = true →
  (∀ v, deviceStatus v = Some prev → settingsDB_data v = cfg →
        Exists Q (emitted v (processGesture side gesture v).2)) →
  Exists Q (emitted w (processGestures next w).2).
Proof.
  intros Hd Hs Hin Hch Hg.
  assert (∀ s v, deviceStatus v = Some prev → settingsDB_data v = cfg →
            s = side → Exists Q (emitted v (processGesturesForSide next s v).2)) as Hside.
  { intros s v Hdv Hsv ->. rewrite processGesturesForSide_dispatches, Hdv.
    apply (for_of_emitted (Some prev) cfg (dispatched (Some prev)) Q
             (changedGestures next (Some prev) side) (processGesture side) gesture);
      try assumption.
    - intros y. apply framed_processGesture.
    - unfold changedGestures. apply list_elem_of_In, filter_In. split; [|exact Hch].
      apply list_elem_of_In, Hin. }
  unfold processGestures. run. rewrite Hd. run.
  pose proof (framed_processGesturesForSide (Some prev) next Left w Hd)
    as (Hd1 & Hs1 & _ & _ & _ & _ & evs1 & Ht1 & _).
  pose proof (framed_processGesturesForSide (Some prev) next Right
                (processGesturesForSide next Left w).2 ltac:(congruence))
    as (_ & _ & _ & _ & _ & _ & evs2 & Ht2 & _).
  pose proof (Hside Left w Hd Hs) as HL.
  pose proof (Hside Right (processGesturesForSide next Left w).2 ltac:(congruence)
                ltac:(congruence)) as HR.
  destruct (processGesturesForSide next Left w) as [[[]|reason] w1] eqn:HrunL; cbn [snd] in *.
  - erewrite emitted_app by (rewrite Ht2, Ht1, <- app_assoc; reflexivity).
    apply Exists_app. destruct side.
    + left. erewrite emitted_app in HL by exact Ht1. auto.
    + right. erewrite emitted_app in HR by exact Ht2. auto.
  - exfalso. revert HrunL. unfold processGesturesForSide, try_catch, logger, modify.
    destruct (for_of _ _ w) as [[[]|] ?]; discriminate.
Qed.

Lemma voiced_processGesturesForSide stored next side :
  voiced stored (λ msg, isSnoozing msg → vibrating stored = true)
    (processGesturesForSide next side).
Proof.
  unfold processGesturesForSide.
  apply voiced_try_catch; [|intros reason; voicing; contradiction].
  apply voiced_for_of. intros gesture. apply voiced_stored.
  destruct (tapChanged next stored side gesture); [|voicing].
  apply voiced_detached, voiced_processGesture.
Qed.

Lemma voiced_processGestures stored next :
  voiced stored (λ msg, isSnoozing msg → vibrating stored = true)
    (processGestures next).
Proof.
  unfold processGestures. apply voiced_stored.
  destruct stored; [|voicing; contradiction].
  apply voiced_bind; [|intros _]; apply voiced_processGesturesForSide.
Qed.

(** What one of the detached calls of a [for_of] logs is among the lines
    the whole loop logs. *)
Lemma for_of_said {A B} stored cfg P (Q : Level * LogMsg → Prop)
    (xs : list A) (f : A → M B) x :
  (∀ y, voiced stored P (f y)) →
  (∀ w, deviceStatus w = stored → settingsDB_data w = cfg →
        Exists Q (said w (f x w).2)) →
  x ∈ xs →
  ∀ w, deviceStatus w = stored → settingsDB_data w = cfg →
       Exists Q (said w (for_of xs (λ y, detached (f y)) w).2).
Proof.
  intros Hvoiced Hx. induction xs as [|y xs IH]; intros Hin w Hd Hs.
  - inversion Hin.
  - rewrite for_of_cons_detached.
    pose proof (Hvoiced y w Hd) as (Hd1 & Hs1 & lines1 & Hl1 & _).
    pose proof (voiced_for_of stored P xs (λ y, detached (f y))
                  (λ y, voiced_detached stored P (f y) (Hvoiced y))
                  (f y w).2 ltac:(congruence))
      as (_ & _ & lines2 & Hl2 & _).
    erewrite said_app by (rewrite Hl2, Hl1, <- app_assoc; reflexivity).
    apply Exists_app.
    apply elem_of_cons in Hin as [-> | Hin].
    + left. specialize (Hx w Hd Hs).
      erewrite said_app in Hx by exact Hl1. exact Hx.
    + right.
      specialize (IH Hin (f y w).2 ltac:(congruence) ltac:(congruence)).
      erewrite said_app in IH by exact Hl2. exact IH.
Qed.

(** What the dispatch of a changed gesture logs is among the lines of
    the round that diffs both sides. *)
Lemma processGestures_said (Q : Level * LogMsg → Prop) next prev cfg side gesture w :
  deviceStatus w = Some prev →
  settingsDB_data w = cfg →
  gesture ∈ GestureSchema_options →
  tapChanged next (Some prev) side gesture = true →
  (∀ v, deviceStatus v = Some prev → settingsDB_data v = cfg →
        Exists Q (said v (processGesture side gesture v).2)) →
  Exists Q (said w (processGestures next w).2).
Proof.
  intros Hd Hs Hin Hch Hg.
  assert (∀ s v, deviceStatus v = Some prev → settingsDB_data v = cfg →
            s = side → Exists Q (said v (processGesturesForSide next s v).2)) as Hside.
  { intros s v Hdv Hsv ->. rewrite processGesturesForSide_dispatches, Hdv.
    apply (for_of_said (Some prev) cfg
             (λ msg, isSnoozing msg → vibrating (Some prev) = true) Q
             (changedGestures next (Some prev) side) (processGesture side) gesture);
      try assumption.
    - intros y. apply voiced_processGesture.
    - unfold changedGestures. apply list_elem_of_In, filter_In. split; [|exact Hch].
      apply list_elem_of_In, Hin. }
  unfold processGestures. run. rewrite Hd. run.
  pose proof (voiced_processGesturesForSide (Some prev) next Left w Hd)
    as (Hd1 & Hs1 & lines1 & Hl1 & _).
  pose proof (voiced_processGesturesForSide (Some prev) next Right
                (processGesturesForSide next Left w).2 ltac:(congruence))
    as (_ & _ & lines2 & Hl2 & _).
  pose proof (Hside Left w Hd Hs) as HL.
  pose proof (Hside Right (processGesturesForSide next Left w).2 ltac:(congruence)
                ltac:(congruence)) as HR.
  destruct (processGesturesForSide next Left w) as [[[]|reason] w1] eqn:HrunL; cbn [snd] in *.
  - erewrite said_app by (rewrite Hl2, Hl1, <- app_assoc; reflexivity).
    apply Exists_app. destruct side.
    + left. erewrite said_app in HL by exact Hl1. auto.
    + right. erewrite said_app in HR by exact Hl2. auto.
  - exfalso. revert HrunL. unfold processGesturesForSide, try_catch, logger, modify.
    destruct (for_of _ _ w) as [[[]|] ?]; discriminate.
Qed.

(** ** The loop *)

Lemma deriveCadence_run w ds :
  deviceStatus w = Some ds →
  deriveCadence w
  = (Returned tt,
     set_cadence (negb (String.eqb (coverVersion ds) Version_Pod3)) (cadence ds) w).
Proof.
  intros Hds. unfold deriveCadence, cadence. run. rewrite Hds. run.
  destruct (String.eqb_spec (coverVersion ds) Version_Pod3);
    case_decide; try contradiction; reflexivity.
Qed.

(** A pass that is not stopped and whose collaborators answer: the
    gestures are diffed and dispatched in a world that still stores the
    previous snapshot, and the new one is stored afterwards. *)
Lemma pollOnce_dispatches p w prev next cfg :
  isRunning w = true →
  deviceStatus w = Some prev →
  coverVersion prev ≠ Version_Pod3 →
  stopRequested p = false →
  connected p = Returned tt →
  snapshot p true = Returned next →
  settingsRead p = Returned cfg →
  ∃ w0,
    deviceStatus w0 = Some prev
    ∧ settingsDB_data w0 = cfg
    ∧ trace w0
      = (trace w ++ [Wait 2000; ConnectFranken; GetDeviceStatus true; SettingsRead])%list
    ∧ logs w0 = logs w
    ∧ (pollOnce p w).1 = Returned true
    ∧ deviceStatus (pollOnce p w).2 = Some next
    ∧ trace (pollOnce p w).2 = trace (processGestures next w0).2
    ∧ logs (pollOnce p w).2 = logs (processGestures next w0).2.
Proof.
  intros Hrun Hprev Hver Hstop Hconn Hsnap Hcfg.
  unfold pollOnce, pollFetch, wait, connectFranken, getDeviceStatus,
    settingsDB_read, publish, stop.
  run. rewrite (deriveCadence_run w prev Hprev). unfold cadence.
  destruct (decide (coverVersion prev = Version_Pod3)) as [|_]; [contradiction|].
  destruct (String.eqb_spec (coverVersion prev) Version_Pod3) as [|_];
    [contradiction|].
  cbn [negb]. run. rewrite Hstop. run. rewrite Hrun. cbn [negb]. run.
  rewrite Hconn. run. rewrite Hsnap. run. rewrite Hcfg. run.
  match goal with
  | |- context [processGestures next ?v] => exists v
  end.
  run. rewrite <- !app_assoc. repeat split. exact Hprev.
Qed.

Section Pacing.
Context (P : Event → Prop).

Lemma paced_ret {A} (a : A) : paced P (mret a).
Proof. apply keeps_ret, grows_refl. Qed.

Lemma paced_lift {A} (o : Outcome A) : paced P (lift o).
Proof. apply keeps_lift, grows_refl. Qed.

Lemma paced_gets {A} (f : World → A) : paced P (gets f).
Proof. apply keeps_gets, grows_refl. Qed.

Lemma paced_bind {A B} (m : M A) (k : A → M B) :
  paced P m → (∀ a, paced P (k a)) → paced P (m ≫= k).
Proof. apply keeps_bind; [apply grows_trans | trivial]. Qed.

Lemma paced_emit e : P e → paced P (emit e).
Proof.
  intros HP w _. repeat split. exists [e].
  split; [reflexivity | repeat constructor; exact HP].
Qed.

Lemma paced_set_settingsDB_data data : paced P (modify (set_settingsDB_data data)).
Proof. intros w _. apply (grows_refl P w). Qed.

Lemma paced_set_deviceStatus ds : paced P (modify (set_deviceStatus ds)).
Proof. intros w _. apply (grows_refl P w). Qed.

Lemma paced_publish s msg : paced P (publish s msg).
Proof. intros w _. apply (grows_refl P w). Qed.

End Pacing.

Lemma paced_processGestures next : paced notWait (detached (processGestures next)).
Proof.
  intros w _.
  eapply appends_grows;
    [|exact (framed_processGestures (deviceStatus w) next w eq_refl)].
  intros []; cbn; tauto.
Qed.

Lemma paced_pollFetch p : paced notWait (pollFetch p).
Proof.
  unfold pollFetch, connectFranken, getDeviceStatus, settingsDB_read.
  repeat first
    [ apply paced_ret | apply paced_lift | apply paced_gets
    | apply paced_emit; exact I
    | apply paced_set_settingsDB_data | apply paced_set_deviceStatus
    | apply paced_publish | apply paced_processGestures
    | apply paced_bind; [|intros ?]
    | match goal with |- paced _ (if ?b then _ else _) => destruct b end ].
Qed.

(** A pass first waits for the cadence of the stored snapshot, leaves
    that cadence in [waitTime], and makes no other wait. *)
Lemma pollOnce_paced p w ds :
  deviceStatus w = Some ds →
  waitTime (pollOnce p w).2 = cadence ds
  ∧ ∃ later,
      trace (pollOnce p w).2 = (trace w ++ Wait (cadence ds) :: later)%list
      ∧ Forall notWait later.
Proof.
  intros Hds. unfold pollOnce, wait, stop. run.
  rewrite (deriveCadence_run w ds Hds). run.
  generalize (negb (String.eqb (coverVersion ds) Version_Pod3)). intros supported.
  assert (∀ v : World,
            waitTime v = cadence ds →
            trace v = (trace w ++ [Wait (cadence ds)])%list →
            waitTime (pollFetch p v).2 = cadence ds
            ∧ ∃ later,
                trace (pollFetch p v).2
                = (trace w ++ Wait (cadence ds) :: later)%list
                ∧ Forall notWait later) as Hfetch.
  { intros v Hwt Htr.
    destruct (paced_pollFetch p v I) as (_ & Hw & evs & Ht & Hevs).
    split; [congruence|]. exists evs. split; [|exact Hevs].
    rewrite Ht, Htr, <- app_assoc. reflexivity. }
  destruct (stopRequested p); run; destruct (isRunning w) eqn:Hrun; run;
    rewrite ?Hrun; run.
  all: try (split; [reflexivity|]; exists []; split; [reflexivity|constructor]).
  apply Hfetch; reflexivity.
Qed.

(** C8: every turn of the loop first waits 60000 when the stored
    snapshot reports [Version.Pod3] and 2000 for any other version,
    whatever the loop locals held before; every wait of the turn, the one
    of its error handler included, lasts as long, and the turn leaves
    that wait in [waitTime]. *)
Theorem poll_cadence_from_snapshot p w ds :
  deviceStatus w = Some ds →
  let r := pollTurn p w in
  let ms := if decide (coverVersion ds = Version_Pod3) then 60000 else 2000 in
  waitTime r.2 = ms
  ∧ (∃ later, emitted w r.2 = Wait ms :: later)
  ∧ ∀ d, Wait d ∈ emitted w r.2 → d = ms.
Proof.
  intros Hds. cbv zeta. fold (cadence ds).
  destruct (pollOnce_paced p w ds Hds) as (Hwt & later & Htr & Hlater).
  assert (∀ d, Wait d ∈ later → d = cadence ds) as Hnone.
  { intros d Hd. rewrite Forall_forall in Hlater. destruct (Hlater _ Hd). }
  unfold pollTurn, try_catch.
  destruct (pollOnce p w) as [[continue|reason] w1]; cbn [snd] in *.
  - split; [exact Hwt|]. erewrite emitted_app by exact Htr.
    split; [eauto|]. intros d [[= ->] | Hd]%elem_of_cons; auto.
  - unfold pollFailed, publish, wait, stop. run. rewrite Hwt.
    assert (∀ v : World,
              waitTime v = cadence ds →
              trace v = (trace w1 ++ [Wait (cadence ds)])%list →
              waitTime v = cadence ds
              ∧ (∃ rest, emitted w v = Wait (cadence ds) :: rest)
              ∧ ∀ d, Wait d ∈ emitted w v → d = cadence ds) as Hend.
    { intros v Hv Hvt. split; [exact Hv|].
      erewrite emitted_app
        by (rewrite Hvt, Htr, <- app_assoc; cbn [app]; reflexivity).
      split; [eauto|].
      intros d [[= ->] | [Hd | [[= ->] | Hd]%elem_of_cons]%elem_of_app]%elem_of_cons;
        auto. inversion Hd. }
    destruct (stopRequestedInBackoff p); run;
      [destruct (isRunning w1); run|];
      match goal with
      | |- context [emitted w ?v] => apply (Hend v); [exact Hwt | reflexivity]
      end.
Qed.

(** C10: in a pass that fetches [next] while [prev] is stored, the
    dispatched temperature request is computed from the target of
    [prev], and a snooze is announced exactly when [prev] reports a
    vibrating alarm, whatever [next] reports; [next] is stored when the
    pass ends. *)
Theorem dispatch_reads_stored_snapshot p w prev next cfg :
  isRunning w = true →
  deviceStatus w = Some prev →
  coverVersion prev ≠ Version_Pod3 →
  stopRequested p = false →
  connected p = Returned tt →
  snapshot p true = Returned next →
  settingsRead p = Returned cfg →
  let w' := (pollOnce p w).2 in
  let alarmActive :=
    isAlarmVibrating (ds_left prev) || isAlarmVibrating (ds_right prev) in
  deviceStatus w' = Some next
  ∧ (∀ side gesture change amount,
       gesture ∈ GestureSchema_options →
       tapEntry next side gesture ≠ tapEntry prev side gesture →
       cfg side gesture = temperature change amount →
       UpdateDeviceStatus
         (JObject [(sideKey side, JObject [("targetTemperatureF", JNumber
            match change with
            | increment => targetTemperatureF (sideOf prev side) + amount
            | decrement => targetTemperatureF (sideOf prev side) - amount
            end)])])
       ∈ emitted w w')
  ∧ (alarmActive = false →
     ∀ side minutes,
       ((info, TripleTapSnoozing side) ∉ said w w')
       ∧ ((info, SnoozingAlarm side minutes) ∉ said w w'))
  ∧ (alarmActive = true →
     ∀ side gesture,
       gesture ∈ GestureSchema_options →
       tapEntry next side gesture ≠ tapEntry prev side gesture →
       cfg side gesture = alarm →
       ((info, TripleTapSnoozing side) ∈ said w w')
       ∧ ((info, SnoozingAlarm side 10) ∈ said w w')).
Proof.
  intros Hrun Hprev Hver Hstop Hconn Hsnap Hcfg. cbv zeta.
  destruct (pollOnce_dispatches p w prev next cfg Hrun Hprev Hver Hstop Hconn
              Hsnap Hcfg) as (w0 & Hd0 & Hs0 & Ht0 & Hl0 & _ & Hnext & Htr & Hlog).
  destruct (framed_processGestures (Some prev) next w0 Hd0)
    as (_ & _ & _ & _ & _ & _ & evs & Hevs & _).
  destruct (voiced_processGestures (Some prev) next w0 Hd0)
    as (_ & _ & lines & Hlines & Hall).
  assert (emitted w0 (processGestures next w0).2 = evs) as Hround
    by (apply emitted_app, Hevs).
  assert (said w0 (processGestures next w0).2 = lines) as Htold
    by (apply said_app, Hlines).
  assert (emitted w (pollOnce p w).2
          = [Wait 2000; ConnectFranken; GetDeviceStatus true; SettingsRead] ++ evs)%list
    as -> by (apply emitted_app; rewrite Htr, Hevs, Ht0, <- app_assoc; reflexivity).
  assert (said w (pollOnce p w).2 = lines) as ->
    by (apply said_app; rewrite Hlog, Hlines, Hl0; reflexivity).
  assert (∀ side gesture,
            tapEntry next side gesture ≠ tapEntry prev side gesture →
            tapChanged next (Some prev) side gesture = true) as Hchanged.
  { intros side gesture Hne. unfold tapChanged. cbn [mbind option_bind].
    apply bool_decide_eq_true_2, Hne. }
  split; [exact Hnext|]. split; [|split].
  - intros side gesture change amount Hin Hne Hbeh.
    apply elem_of_app. right. rewrite <- Hround.
    set (request := UpdateDeviceStatus _).
    assert (Exists (eq request) (emitted w0 (processGestures next w0).2)) as Hex.
    { apply (processGestures_emitted _ next prev cfg side gesture w0 Hd0 Hs0 Hin
               (Hchanged _ _ Hne)).
      intros v Hdv Hsv.
      erewrite emitted_app
        by (apply (processGesture_temperature side gesture change amount prev v);
            [rewrite Hsv; exact Hbeh | exact Hdv]).
      apply Exists_cons_hd. reflexivity. }
    apply Exists_exists in Hex as (e & He & <-). exact He.
  - intros Hquiet side minutes. rewrite Forall_forall in Hall.
    split; intros Hin; specialize (Hall _ Hin); cbn in Hall;
      specialize (Hall I); congruence.
  - intros Hactive side gesture Hin Hne Hbeh.
    assert (∀ line,
              (∀ v, deviceStatus v = Some prev → settingsDB_data v = cfg →
                    line ∈ said v (processGesture side gesture v).2) →
              line ∈ lines) as Hamong.
    { intros line Hline.
      assert (Exists (eq line) (said w0 (processGestures next w0).2)) as Hex.
      { apply (processGestures_said _ next prev cfg side gesture w0 Hd0 Hs0 Hin
                 (Hchanged _ _ Hne)).
        intros v Hdv Hsv. apply Exists_exists. exists line.
        split; [apply Hline; assumption | reflexivity]. }
      rewrite Htold in Hex. apply Exists_exists in Hex as (l & Hl & <-). exact Hl. }
    split; apply Hamong; intros v Hdv Hsv;
      destruct (processGesture_alarm_said side gesture prev v
                  ltac:(rewrite Hsv; exact Hbeh) Hdv Hactive)
        as (_ & _ & rest & ->);
      [left | right; left].
Qed.

(** ** Further properties of the snooze *)

(** X1: a snooze touches the log and the trace only: the blob is read, never
    rewritten.  It sends at most two commands, and only the alarm-set
    command of its own side and the clear. *)
Theorem snoozeAlarm_sends_own_commands_only side minutes w :
  let r := snoozeAlarm side minutes w in
  set_trace (trace w) (quiet r.2) = quiet w
  ∧ ∃ evs,
      trace r.2 = (trace w ++ evs)%list
      ∧ (length evs ≤ 2)%nat
      ∧ Forall (λ e, e = ExecuteFunction "ALARM_CLEAR" "empty"
                     ∨ ∃ hexPayload,
                         e = ExecuteFunction
                               match side with
                               | Left => "ALARM_LEFT"
                               | Right => "ALARM_RIGHT"
                               end hexPayload) evs.
Proof.
  cbv zeta. destruct (snoozeAlarm_rejects side minutes w) as (lines & -> & _).
  cbn [fst snd trace set_logs]. split; [unfold quiet; same_world|].
  exists []. split; [symmetry; apply app_nil_r|]. split; [cbn; lia | constructor].
Qed.
(** ** Further properties of the dispatcher *)

(** X3: an alarm gesture while no side of the stored snapshot has a vibrating
    alarm, or while no snapshot is stored, does nothing at all. *)
Theorem alarm_gesture_without_active_alarm side gesture w :
  settingsDB_data w side gesture = alarm →
  vibrating (deviceStatus w) = false →
  processGesture side gesture w = (Returned tt, w).
Proof.
  intros Hcfg Hquiet. unfold processGesture. run. rewrite Hcfg. run.
  unfold vibrating in Hquiet.
  destruct (deviceStatus w) as [ds|]; [rewrite Hquiet|]; reflexivity.
Qed.

(** X4: a dispatch does not touch the stored snapshot, so temperature
    gestures dispatched between two polls do not add up: each requests
    its own step from the same stored target. *)
Theorem temperature_gestures_share_base side g1 g2 c1 a1 c2 a2 ds w :
  settingsDB_data w side g1 = temperature c1 a1 →
  settingsDB_data w side g2 = temperature c2 a2 →
  deviceStatus w = Some ds →
  let stepped (change : Change) (amount : Z) :=
    match change with
    | increment => targetTemperatureF (sideOf ds side) + amount
    | decrement => targetTemperatureF (sideOf ds side) - amount
    end in
  let w1 := (processGesture side g1 w).2 in
  let w2 := (processGesture side g2 w1).2 in
  emitted w w2
  = [UpdateDeviceStatus (temperatureRequest side (stepped c1 a1));
     UpdateDeviceStatus (temperatureRequest side (stepped c2 a2))].
Proof.
  intros H1 H2 Hds stepped w1 w2. subst stepped w1 w2.
  destruct (framed_processGesture (deviceStatus w) side g1 w eq_refl)
    as (Hd & Hs & _).
  pose proof (processGesture_temperature side g1 c1 a1 ds w H1 Hds) as Ht1.
  pose proof (processGesture_temperature side g2 c2 a2 ds
                (processGesture side g1 w).2
                ltac:(rewrite Hs; exact H2) ltac:(rewrite Hd; exact Hds)) as Ht2.
  apply emitted_app. rewrite Ht2, Ht1, <- app_assoc. reflexivity.
Qed.

(** X5: a base gesture whose movement command the actuator rejects, while
    the store answers: the handler flushes [isMoving = false], restores
    the preset mode and returns; no timer is armed.  The position that
    was written ahead of the movement stays in the shared status. *)
Theorem base_gesture_movement_rejected side gesture w data reason :
  settingsDB_data w side gesture = base →
  memoryDB_data w = Some data →
  (∀ history d, fails history (MemoryDBWrite d) = None) →
  (∀ history, fails history (movement (toggled (currentBasePreset w))) = Some reason) →
  let r := processGesture side gesture w in
  let target := BASE_PRESETS (toggled (currentBasePreset w)) in
  let status moving :=
    Some {| baseStatus := Some
      {| bs_head := head target; bs_feet := feet target; isMoving := moving;
         lastUpdate := clock w; isConfigured := true |} |} in
  r.1 = Returned tt
  ∧ currentBasePreset r.2 = currentBasePreset w
  ∧ memoryDB_data r.2 = status false
  ∧ emitted w r.2
    = [MemoryDBWrite (status true);
       movement (toggled (currentBasePreset w));
       MemoryDBWrite (status false)]
  ∧ (error, QuadTapFailed reason) ∈ logs r.2.
Proof.
  destruct w as [running stored preset memory cfg health blob now tr said g ms].
  cbn [settingsDB_data memoryDB_data trace currentBasePreset clock].
  intros Hcfg -> Hstore Hmove. cbv zeta.
  unfold processGesture, memoryDB_write, trimixBase_goToFlat,
    trimixBase_setPosition, setTimeout.
  exec. rewrite Hcfg.
  destruct preset; unfold movement, toggled in Hmove; exec;
    rewrite ?preset_eta, !Hstore, Hmove; exec; rewrite ?Hstore; exec;
    (erewrite emitted_app by (cbn [trace]; rewrite <- ?app_assoc; reflexivity));
    cbn; repeat split; rewrite ?elem_of_app, ?elem_of_cons; tauto.
Qed.

(** X6: a base gesture while [memoryDB.data] is absent and the actuator
    answers: nothing is flushed, and the timer is estimated from the
    origin, the absent status reading as head 0 and feet 0. *)
Theorem base_gesture_without_store side gesture w :
  settingsDB_data w side gesture = base →
  memoryDB_data w = None →
  let r := processGesture side gesture w in
  let target := BASE_PRESETS (toggled (currentBasePreset w)) in
  answered (trace w) (emitted w r.2) →
  memoryDB_data r.2 = None
  ∧ emitted w r.2
    = [movement (toggled (currentBasePreset w));
       SetTimeout (Z.max (Z.max (Z.abs (0 - head target) * 200)
                                (Z.abs (0 - feet target) * 200))
                         3000)].
Proof.
  destruct w as [running stored preset memory cfg health blob now tr said g ms].
  cbn [settingsDB_data memoryDB_data trace currentBasePreset clock].
  intros Hcfg ->. cbv zeta.
  unfold processGesture, memoryDB_write, trimixBase_goToFlat,
    trimixBase_setPosition, setTimeout, movement.
  exec. rewrite Hcfg.
  destruct preset; exec; rewrite ?preset_eta; answers;
    (erewrite emitted_app by (cbn [trace]; rewrite <- ?app_assoc; reflexivity));
    cbn; intros Hans; try (exfalso; intuition congruence); split; reflexivity.
Qed.

(** X8: a base gesture one of whose calls was rejected arms no timer and
    does not leave [isMoving] set; when its handler returns, the preset
    mode is the one of before the gesture. *)
Theorem base_gesture_failure_arms_no_timer side gesture w :
  settingsDB_data w side gesture = base →
  let r := processGesture side gesture w in
  ¬ answered (trace w) (emitted w r.2) →
  (∀ delay, SetTimeout delay ∉ emitted w r.2)
  ∧ isMoving <$> (memoryDB_data r.2 ≫= baseStatus) ≠ Some true
  ∧ (r.1 = Returned tt → currentBasePreset r.2 = currentBasePreset w).
Proof.
  intros Hcfg r Hrejected.
  destruct (base_gesture_rollback side gesture w Hcfg Hrejected)
    as (Htimer & Hflag & Hmode & _).
  auto.
Qed.

(** ** Further properties of the gesture diff *)

Lemma processGesturesForSide_returns next side w :
  (processGesturesForSide next side w).1 = Returned tt.
Proof.
  rewrite processGesturesForSide_dispatches. apply for_of_detached_returns.
Qed.

(** X9: whatever the collaborators answer during the dispatches, the diff of
    a snapshot returns normally: a failed dispatch never reaches the
    polling loop. *)
Theorem processGestures_never_throws next w :
  (processGestures next w).1 = Returned tt.
Proof.
  unfold processGestures. unfold mbind at 1, M_bind at 1, gets. cbn beta iota.
  destruct (deviceStatus w); [|reflexivity].
  unfold mbind, M_bind.
  pose proof (processGesturesForSide_returns next Left w) as HL.
  destruct (processGesturesForSide next Left w) as [[[]|reason] w1];
    [|discriminate].
  apply processGesturesForSide_returns.
Qed.

(** X10: with a snapshot stored, the changed gestures of the left side are
    dispatched first, then those of the right side, each side in the
    order of [GestureSchema.options]. *)
Theorem processGestures_left_then_right next prev w :
  deviceStatus w = Some prev →
  let dispatchAll side :=
    for_of (changedGestures next (Some prev) side)
      (λ gesture, detached (processGesture side gesture)) in
  (processGestures next w).2 = (dispatchAll Right (dispatchAll Left w).2).2.
Proof.
  intros Hprev dispatchAll. subst dispatchAll.
  unfold processGestures. unfold mbind at 1, M_bind at 1, gets. cbn beta iota.
  rewrite Hprev. unfold mbind, M_bind.
  pose proof (processGesturesForSide_returns next Left w) as HL.
  pose proof (processGesturesForSide_dispatches next Left w) as HdL.
  rewrite Hprev in HdL.
  destruct (framed_processGesturesForSide (Some prev) next Left w Hprev)
    as (Hd1 & _).
  destruct (processGesturesForSide next Left w) as [[[]|reason] w1];
    [|discriminate].
  cbn [snd] in Hd1. rewrite processGesturesForSide_dispatches, Hd1, Hprev, <- HdL.
  reflexivity.
Qed.

(** ** Further properties of the loop *)

(** X11: [stop()] leaves the monitor stopped and calls no collaborator, and a
    second [stop()] changes nothing more. *)
Theorem stop_idempotent w :
  isRunning (stop w).2 = false
  ∧ trace (stop w).2 = trace w
  ∧ (stop;; stop) w = stop w.
Proof.
  unfold stop. run. destruct (isRunning w) eqn:Hrun; run; rewrite ?Hrun; run;
    repeat split; reflexivity.
Qed.

(** X12: [frankenLoop] first probes the device without gesture fields; it
    fetches again with gesture fields when the probe reports another
    cover than [Version.Pod3], and enters the loop with the last snapshot
    it fetched as the stored one. *)
Theorem frankenLoop_initial_fetch first polls w probe full :
  connected first = Returned tt →
  snapshot first false = Returned probe →
  snapshot first true = Returned full →
  ∃ w0,
    frankenLoop first polls w = polling polls w0
    ∧ isRunning w0 = isRunning w
    ∧ (if decide (coverVersion probe = Version_Pod3)
       then deviceStatus w0 = Some probe
            ∧ trace w0 = (trace w ++ [ConnectFranken; GetDeviceStatus false])%list
       else deviceStatus w0 = Some full
            ∧ trace w0
              = (trace w ++ [ConnectFranken; GetDeviceStatus false;
                             GetDeviceStatus true])%list).
Proof.
  intros Hconn Hprobe Hfull.
  unfold frankenLoop, frankenLoop_connected, connectFranken, getDeviceStatus,
    deriveCadence. run.
  rewrite Hconn. run. rewrite Hprobe. run.
  destruct (decide (coverVersion probe = Version_Pod3)) as [Hpod|Hpod];
    destruct (String.eqb_spec (coverVersion probe) Version_Pod3) as [|];
    try contradiction; run; rewrite ?Hfull; run;
    eexists; (split; [reflexivity|]); run; rewrite <- ?app_assoc;
    repeat split; reflexivity.
Qed.

Lemma polling_not_running polls w :
  isRunning w = false →
  polling polls w = (Returned tt, set_logs (logs w ++ [(debug, LoopExited)]) w).
Proof. intros Hrun. destruct polls; cbn [polling]; run; rewrite Hrun; reflexivity. Qed.

(** X13: a [stop()] during the wait of a pass ends the loop after that wait:
    nothing is fetched, the stored snapshot stays, and the polls that
    would have followed are not made. *)
Theorem polling_stops_after_wait p rest w ds :
  isRunning w = true →
  deviceStatus w = Some ds →
  stopRequested p = true →
  let r := polling (p :: rest) w in
  r.1 = Returned tt
  ∧ emitted w r.2 = [Wait (cadence ds)]
  ∧ isRunning r.2 = false
  ∧ deviceStatus r.2 = Some ds
  ∧ (debug, LoopExited) ∈ logs r.2.
Proof.
  intros Hrun Hds Hstop. cbv zeta.
  assert (∃ v, pollTurn p w = (Returned false, v)
               ∧ isRunning v = false
               ∧ deviceStatus v = Some ds
               ∧ trace v = (trace w ++ [Wait (cadence ds)])%list)
    as (v & Hturn & Hv & Hdv & Htv).
  { unfold pollTurn, try_catch, pollOnce, wait, stop. run.
    rewrite (deriveCadence_run w ds Hds). run. rewrite Hstop. run.
    rewrite Hrun. run. eexists. split; [reflexivity|]. run.
    repeat split. exact Hds. }
  assert (polling (p :: rest) w
          = (Returned tt, set_logs (logs v ++ [(debug, LoopExited)]) v)) as ->.
  { cbn [polling]. unfold mbind at 1, M_bind at 1, gets. cbn beta iota.
    rewrite Hrun. cbn [negb]. unfold mbind, M_bind. rewrite Hturn.
    apply (polling_not_running rest v Hv). }
  cbn [fst snd].
  split; [reflexivity|]. split; [apply emitted_app; exact Htv|].
  split; [exact Hv|]. split; [exact Hdv|].
  cbn [logs set_logs]. apply elem_of_app. right. left.
Qed.

(** X14: a pass that is not stopped during its wait and one of whose three
    calls throws: the handler publishes the failure with the reason,
    waits once more for the same cadence and lets the loop go on; the
    stored snapshot and the settings are those of before the pass. *)
Theorem pollTurn_failure_backs_off p w ds reason calls :
  isRunning w = true →
  deviceStatus w = Some ds →
  stopRequested p = false →
  let gestures := negb (String.eqb (coverVersion ds) Version_Pod3) in
  (connected p = Thrown reason ∧ calls = [ConnectFranken])
  ∨ (connected p = Returned tt ∧ snapshot p gestures = Thrown reason
     ∧ calls = [ConnectFranken; GetDeviceStatus gestures])
  ∨ (connected p = Returned tt ∧ (∃ next, snapshot p gestures = Returned next)
     ∧ settingsRead p = Thrown reason
     ∧ calls = [ConnectFranken; GetDeviceStatus gestures; SettingsRead]) →
  let r := pollTurn p w in
  r.1 = Returned true
  ∧ emitted w r.2 = (Wait (cadence ds) :: calls ++ [Wait (cadence ds)])%list
  ∧ deviceStatus r.2 = Some ds
  ∧ settingsDB_data r.2 = settingsDB_data w
  ∧ frankenMonitorStatus r.2
    = {| status := failed; message := reason;
         timestamp := clock w + cadence ds |}
  ∧ isRunning r.2 = negb (stopRequestedInBackoff p).
Proof.
  intros Hrun Hds Hstop gestures Hcase. cbv zeta. subst gestures.
  assert (∃ v, pollTurn p w = (Returned true, v)
               ∧ trace v
                 = (trace w ++ Wait (cadence ds) :: calls ++ [Wait (cadence ds)])%list
               ∧ deviceStatus v = Some ds
               ∧ settingsDB_data v = settingsDB_data w
               ∧ frankenMonitorStatus v
                 = {| status := failed; message := reason;
                      timestamp := clock w + cadence ds |}
               ∧ isRunning v = negb (stopRequestedInBackoff p))
    as (v & -> & Ht & Hd & Hs & Hh & Hr).
  { unfold pollTurn, pollOnce, pollFetch, pollFailed, wait, connectFranken,
      getDeviceStatus, settingsDB_read, publish, stop.
    run. rewrite (deriveCadence_run w ds Hds). run. rewrite Hstop. run.
    rewrite Hrun. run.
    destruct Hcase as [(Hc & ->) | [(Hc & Hsn & ->) | (Hc & (next & Hsn) & Hre & ->)]];
      rewrite Hc; run; rewrite ?Hsn; run; rewrite ?Hre; run;
      destruct (stopRequestedInBackoff p); run; rewrite ?Hrun; run;
      (eexists; split; [reflexivity|]); run; rewrite <- ?app_assoc;
      repeat split; assumption. }
  cbn [fst snd]. split; [reflexivity|].
  split; [apply emitted_app; exact Ht|]. auto.
Qed.

(** X15: a pass that is not stopped during its wait and whose three calls are
    answered stores the fetched snapshot and the settings read, and
    publishes a healthy status with an empty message, dated after the
    wait; the monitor keeps running. *)
Theorem pollTurn_answered_publishes_healthy p w ds next cfg :
  isRunning w = true →
  deviceStatus w = Some ds →
  stopRequested p = false →
  connected p = Returned tt →
  snapshot p (negb (String.eqb (coverVersion ds) Version_Pod3)) = Returned next →
  settingsRead p = Returned cfg →
  let r := pollTurn p w in
  r.1 = Returned true
  ∧ deviceStatus r.2 = Some next
  ∧ settingsDB_data r.2 = cfg
  ∧ frankenMonitorStatus r.2
    = {| status := healthy; message := ""; timestamp := clock w + cadence ds |}
  ∧ isRunning r.2 = true.
Proof.
  intros Hrun Hds Hstop Hconn Hsnap Hcfg. cbv zeta.
  assert (∃ v, pollTurn p w = (Returned true, v)
               ∧ deviceStatus v = Some next
               ∧ settingsDB_data v = cfg
               ∧ frankenMonitorStatus v
                 = {| status := healthy; message := "";
                      timestamp := clock w + cadence ds |}
               ∧ isRunning v = true)
    as (v & -> & Hv); [|exact (conj eq_refl Hv)].
  unfold pollTurn, pollOnce, pollFetch, wait, connectFranken,
    getDeviceStatus, settingsDB_read, publish, stop.
  run. rewrite (deriveCadence_run w ds Hds). run. rewrite Hstop. run.
  rewrite Hrun. run. rewrite Hconn. run. rewrite Hsnap. run. rewrite Hcfg. run.
  destruct (negb (String.eqb (coverVersion ds) Version_Pod3)); run;
    (eexists; split; [reflexivity|]); run; [|repeat split; exact Hrun].
  match goal with
  | |- context [processGestures next ?v] =>
      destruct (framed_processGestures (Some ds) next v Hds)
        as (_ & Hs & Hr & _ & _ & Hc & _)
  end.
  revert Hs Hr Hc. run. intros -> -> ->. repeat split. exact Hrun.
Qed.

(** X16: with a [Version.Pod3] cover stored, an answered pass waits 60000,
    fetches without gesture fields and dispatches nothing, whatever the
    fetched snapshot holds. *)
Theorem pollTurn_without_gestures p w ds next cfg :
  isRunning w = true →
  deviceStatus w = Some ds →
  coverVersion ds = Version_Pod3 →
  stopRequested p = false →
  connected p = Returned tt →
  snapshot p false = Returned next →
  settingsRead p = Returned cfg →
  let r := pollTurn p w in
  emitted w r.2 = [Wait 60000; ConnectFranken; GetDeviceStatus false; SettingsRead]
  ∧ deviceStatus r.2 = Some next
  ∧ currentBasePreset r.2 = currentBasePreset w
  ∧ memoryDB_data r.2 = memoryDB_data w.
Proof.
  intros Hrun Hds Hver Hstop Hconn Hsnap Hcfg. cbv zeta.
  assert (∃ v, pollTurn p w = (Returned true, v)
               ∧ trace v = (trace w ++ [Wait 60000; ConnectFranken;
                                        GetDeviceStatus false; SettingsRead])%list
               ∧ deviceStatus v = Some next
               ∧ currentBasePreset v = currentBasePreset w
               ∧ memoryDB_data v = memoryDB_data w)
    as (v & -> & Ht & Hrest).
  { unfold pollTurn, pollOnce, pollFetch, wait, connectFranken,
      getDeviceStatus, settingsDB_read, publish, stop.
    run. rewrite (deriveCadence_run w ds Hds). unfold cadence.
    rewrite Hver, String.eqb_refl.
    destruct (decide (Version_Pod3 = Version_Pod3)) as [_|]; [|contradiction].
    run. rewrite Hstop. run. rewrite Hrun. run. rewrite Hconn. run.
    rewrite Hsnap. run. rewrite Hcfg. run.
    eexists; split; [reflexivity|]. run. rewrite <- ?app_assoc.
    repeat split. }
  cbn [snd]. split; [apply emitted_app; exact Ht | exact Hrest].
Qed.

Lemma pollTurn_returns p w : ∃ continue, (pollTurn p w).1 = Returned continue.
Proof.
  unfold pollTurn, try_catch.
  destruct (pollOnce p w) as [[continue|reason] w1]; [eauto|].
  exists true. unfold pollFailed, publish, wait, stop. run.
  destruct (stopRequestedInBackoff p); run; [destruct (isRunning w1)|]; reflexivity.
Qed.

Lemma polling_returns polls w : (polling polls w).1 = Returned tt.
Proof.
  revert w. induction polls as [|p rest IH]; intros w; cbn [polling];
    unfold mbind at 1, M_bind at 1, gets; cbn beta iota;
    destruct (isRunning w); cbn [negb]; try reflexivity.
  unfold mbind, M_bind.
  destruct (pollTurn_returns p w) as (continue & Hturn).
  destruct (pollTurn p w) as [[b|reason] w1]; [apply IH | discriminate].
Qed.

(** X17: the loop never throws, whatever its collaborators and the dispatches
    do, even without a stored snapshot: the handler of [start()] can only
    be reached from the connection and the fetches that precede the
    loop. *)
Theorem polling_never_throws polls w :
  (polling polls w).1 = Returned tt.
Proof. apply polling_returns. Qed.



(** ** Further compositions *)

(** X19: an alarm gesture while an alarm vibrates on either side runs the
    snooze of the side of the gesture, with ten minutes: both are
    announced in the log, in this order; the dispatch makes no call and
    rejects with the error of the unbound [executeFunction]. *)
Theorem alarm_gesture_snoozes_own_side side gesture ds w :
  settingsDB_data w side gesture = alarm →
  deviceStatus w = Some ds →
  isAlarmVibrating (ds_left ds) || isAlarmVibrating (ds_right ds) = true →
  let r := processGesture side gesture w in
  r.1 = Thrown "ReferenceError: executeFunction is not defined"
  ∧ emitted w r.2 = []
  ∧ ∃ rest, said w r.2
            = (info, TripleTapSnoozing side) :: (info, SnoozingAlarm side 10) :: rest.
Proof.
  intros Hcfg Hds Hv. cbv zeta.
  destruct (processGesture_alarm_said side gesture ds w Hcfg Hds Hv)
    as (Hthrown & Htrace & Hsaid).
  split; [exact Hthrown|]. split; [|exact Hsaid].
  apply emitted_app. rewrite Htrace. symmetry. apply app_nil_r.
Qed.

(** X20: a dispatch leaves the stored snapshot, the settings, the run flag,
    the loop locals and the clock as they are; it makes no wait,
    connection, fetch or settings read, and sends device commands only
    when the stored snapshot reports a vibrating alarm. *)
Theorem processGesture_frame side gesture w :
  appends (dispatched (deviceStatus w)) w (processGesture side gesture w).2.
Proof. apply (framed_processGesture (deviceStatus w) side gesture w eq_refl). Qed.

End Monitor.

(** ** The monitor on concrete worlds *)

Import Bench.

Lemma answered_reliable before evs : answered reliable before evs.
Proof.
  revert before. induction evs as [|e evs IH]; intros before; cbn; [exact I|].
  split; [destruct e; reflexivity | apply IH].
Qed.

(** C1: the estimate of the code against the estimate of the
    specification, for any table of presets.  The monitor is in flat
    mode, the base rests 20 above the head position of the relax preset,
    and every call is answered: the gesture sends the base to the relax
    preset and arms the timer for 3000, where the travel of the head
    gives 4000. *)
Theorem base_timer_ignores_travel (BASE_PRESETS : Preset → BasePreset) :
  let target := BASE_PRESETS relax in
  let before :=
    {| bs_head := head target + 20; bs_feet := feet target; isMoving := false;
       lastUpdate := 0; isConfigured := true |} in
  let w := set_memoryDB_data (Some {| baseStatus := Some before |}) world in
  let r := processGesture reliable Cbor.encode Cbor.decode BASE_PRESETS
             Left "quadTap" w in
  currentBasePreset w = flat
  ∧ emitted w r.2
    = [MemoryDBWrite (Some {| baseStatus := Some
         {| bs_head := head target; bs_feet := feet target; isMoving := true;
            lastUpdate := clock w; isConfigured := true |} |});
       SetPosition target;
       SetTimeout 3000]
  ∧ travelEstimate before target = 4000.
Proof.
  cbv zeta. split; [reflexivity|]. split.
  - apply (base_gesture_answered reliable Cbor.encode Cbor.decode BASE_PRESETS
             Left "quadTap"
             (set_memoryDB_data
                (Some {| baseStatus := Some
                   {| bs_head := head (BASE_PRESETS relax) + 20;
                      bs_feet := feet (BASE_PRESETS relax); isMoving := false;
                      lastUpdate := 0; isConfigured := true |} |}) world)
             _ eq_refl eq_refl).
    apply answered_reliable.
  - unfold travelEstimate. cbn [bs_head bs_feet]. lia.
Qed.

(** The same on the presets of the specification's example, with the
    base resting flat: head 0 to head 20. *)
Example base_timer_on_example :
  let r := processGesture reliable Cbor.encode Cbor.decode presets Left "quadTap"
             world in
  emitted world r.2
  = [MemoryDBWrite (Some {| baseStatus := Some
       {| bs_head := 20; bs_feet := 1; isMoving := true;
          lastUpdate := 1700000000123; isConfigured := true |} |});
     SetPosition (presets relax);
     SetTimeout 3000]
  ∧ travelEstimate
      {| bs_head := 0; bs_feet := 0; isMoving := false;
         lastUpdate := 0; isConfigured := true |}
      (presets relax)
    = 4000.
Proof. split; vm_compute; reflexivity. Qed.

(** C5: a base gesture while the store rejects its flushes, for any
    table of presets.  The flush of the handler throws as the first one
    did, the error leaves [processGesture], and the preset mode stays
    toggled. *)
Theorem base_rollback_skipped_when_store_down (BASE_PRESETS : Preset → BasePreset) :
  let w := worldWith relax (Some (Cbor.encode alarmData)) in
  let r := processGesture store_down Cbor.encode Cbor.decode BASE_PRESETS
             Left "quadTap" w in
  let target := BASE_PRESETS flat in
  currentBasePreset w = relax
  ∧ currentBasePreset r.2 = flat
  ∧ r.1 = Thrown "EACCES: permission denied"
  ∧ isMoving <$> (memoryDB_data r.2 ≫= baseStatus) = Some false
  ∧ emitted w r.2
    = [MemoryDBWrite (Some {| baseStatus := Some
         {| bs_head := head target; bs_feet := feet target; isMoving := true;
            lastUpdate := 1700000000123; isConfigured := true |} |});
       MemoryDBWrite (Some {| baseStatus := Some
         {| bs_head := head target; bs_feet := feet target; isMoving := false;
            lastUpdate := 1700000000123; isConfigured := true |} |})].
Proof. repeat split; vm_compute; reflexivity. Qed.

(** Without an alarm file the handler logs the failure of the read, and
    the clear it attempts throws. *)
Example snoozeAlarm_without_file :
  let w := worldWith flat None in
  let r := snoozeAlarm Cbor.encode Cbor.decode Left 10 w in
  r.1 = Thrown "ReferenceError: executeFunction is not defined"
  ∧ emitted w r.2 = []
  ∧ said w r.2
    = [(info, SnoozingAlarm Left 10);
       (error, FailedToSnooze
          "Error: ENOENT: no such file or directory, open '/persistent/alarm.cbr'")].
Proof. repeat split; vm_compute; reflexivity. Qed.

(** With a blob that has lost the record of the right side, the snooze
    of the right side ends the same way. *)
Example snoozeAlarm_without_record :
  let w := worldWith flat (Some (Cbor.encode alarmDataLeftOnly)) in
  let r := snoozeAlarm Cbor.encode Cbor.decode Right 10 w in
  r.1 = Thrown "ReferenceError: executeFunction is not defined"
  ∧ emitted w r.2 = []
  ∧ said w r.2
    = [(info, SnoozingAlarm Right 10);
       (debug, DecodedAlarmData alarmDataLeftOnly);
       (error, FailedToSnooze "Error: Invalid alarm data for right side")].
Proof. repeat split; vm_compute; reflexivity. Qed.

(** C3: the snooze of the left side for ten minutes, at 1700000000.123,
    with a blob that decodes and holds the record of the left side.  The
    payload is built as the specification says, [pl], [du] and [pi] of the record
    and the trigger time 1700000600, and logged; the send of line 101
    throws the error of the unbound identifier, and so does the clear of
    the handler: no command is issued. *)
Theorem snoozeAlarm_set_command_never_sent :
  let r := snoozeAlarm Cbor.encode Cbor.decode Left 10 world in
  alarm_cbr world = Some (Cbor.encode alarmData)
  ∧ Cbor.decode (Cbor.encode alarmData) = Some alarmData
  ∧ r.1 = Thrown "ReferenceError: executeFunction is not defined"
  ∧ emitted world r.2 = []
  ∧ said world r.2
    = [(info, SnoozingAlarm Left 10);
       (debug, DecodedAlarmData alarmData);
       (info, SettingSnoozeAlarm Left 10
          (JObject [("pl", JNumber 50); ("du", JNumber 600);
                    ("tt", JNumber 1700000600); ("pi", JString "rise")]));
       (error, FailedToSnooze "ReferenceError: executeFunction is not defined")].
Proof. repeat split; vm_compute; reflexivity. Qed.


(** A record whose pattern is a 64-bit integer: the blob decodes, and
    the log line of line 59 throws before the record is looked at. *)
Example snoozeAlarm_with_bigint :
  let record :=
    JObject [("left", JObject [("pl", JNumber 50); ("du", JNumber 600);
                               ("tt", JNumber 1700000000);
                               ("pi", JBigInt 9007199254740993)])] in
  let w := worldWith flat (Some (Cbor.encode record)) in
  Cbor.decode (Cbor.encode record) = Some record
  ∧ said w (snoozeAlarm Cbor.encode Cbor.decode Left 10 w).2
    = [(info, SnoozingAlarm Left 10);
       (error, FailedToSnooze "TypeError: Do not know how to serialize a BigInt")].
Proof. repeat split; vm_compute; reflexivity. Qed.



(** A left double tap raises the target of 70 by 2 to 72; a right double
    tap lowers it by 2 to 68. *)
Lemma temperature_gesture_request_witness :
  emitted world
    (processGesture reliable Cbor.encode Cbor.decode presets Left "doubleTap" world).2
  = [UpdateDeviceStatus
       (JObject [("left", JObject [("targetTemperatureF", JNumber 72)])])]
  ∧ emitted world
      (processGesture reliable Cbor.encode Cbor.decode presets Right "doubleTap" world).2
    = [UpdateDeviceStatus
         (JObject [("right", JObject [("targetTemperatureF", JNumber 68)])])].
Proof.
  split.
  - exact (temperature_gesture_request reliable Cbor.encode Cbor.decode presets
             Left "doubleTap" increment 2 snapshot0 world eq_refl eq_refl).
  - exact (temperature_gesture_request reliable Cbor.encode Cbor.decode presets
             Right "doubleTap" decrement 2 snapshot0 world eq_refl eq_refl).
Defined.


(** Between [snapshot0] and [snapshot1] the left side changed its double
    tap count and lost its quad tap entry: each is reported once, the
    triple tap not at all. *)
Lemma gesture_diff_reports_once_witness :
  changedGestures gestures snapshot1 (Some snapshot0) Left = ["doubleTap"; "quadTap"]
  ∧ count_occ string_dec (changedGestures gestures snapshot1 (Some snapshot0) Left)
      "quadTap" = 1%nat
  ∧ count_occ string_dec (changedGestures gestures snapshot1 (Some snapshot0) Left)
      "tripleTap" = 0%nat.
Proof.
  assert (NoDup gestures) as Hnd by compute_done.
  split; [vm_compute; reflexivity|]. split.
  - destruct (gesture_diff_reports_once reliable Cbor.encode Cbor.decode presets
                gestures snapshot1 snapshot0 Left "quadTap" world Hnd
                ltac:(compute_done) eq_refl)
      as (_ & Hcount & _).
    rewrite Hcount. vm_compute. reflexivity.
  - destruct (gesture_diff_reports_once reliable Cbor.encode Cbor.decode presets
                gestures snapshot1 snapshot0 Left "tripleTap" world Hnd
                ltac:(compute_done) eq_refl)
      as (_ & Hcount & _).
    rewrite Hcount. vm_compute. reflexivity.
Defined.

(** A turn over a Pod 4 snapshot waits 2000, a turn over a Pod 3
    snapshot 60000, whatever wait the loop held before. *)
Lemma poll_cadence_from_snapshot_witness :
  (let r := pollTurn reliable Cbor.encode Cbor.decode presets Pod3 gestures
              (poll snapshot1) world in
   waitTime r.2 = 2000
   ∧ (∃ later, emitted world r.2 = Wait 2000 :: later)
   ∧ ∀ d, Wait d ∈ emitted world r.2 → d = 2000)
  ∧ (let w := set_deviceStatus (Some snapshotPod3) world in
     let r := pollTurn reliable Cbor.encode Cbor.decode presets Pod3 gestures
                (poll snapshotPod3) w in
     waitTime w = 2000
     ∧ waitTime r.2 = 60000
     ∧ (∃ later, emitted w r.2 = Wait 60000 :: later)
     ∧ ∀ d, Wait d ∈ emitted w r.2 → d = 60000).
Proof.
  split.
  - exact (poll_cadence_from_snapshot reliable Cbor.encode Cbor.decode presets Pod3
             gestures (poll snapshot1) world snapshot0 eq_refl).
  - split; [reflexivity|].
    exact (poll_cadence_from_snapshot reliable Cbor.encode Cbor.decode presets Pod3
             gestures (poll snapshotPod3)
             (set_deviceStatus (Some snapshotPod3) world) snapshotPod3 eq_refl).
Defined.



(** Two quad taps of one pass from the flat mode, the first resumed
    first: go-to-flat twice, and no set-position. *)
Lemma base_gestures_in_flight_witness :
  let dispatch side :=
    processGesture_async reliable Cbor.encode Cbor.decode presets side "quadTap" in
  ∃ s, resumed [0; 1; 0; 0]%nat
         (spawn (dispatch Right) (spawn (dispatch Left) (world, []))) = Some s
       ∧ s.2 = []
       ∧ currentBasePreset s.1 = flat
       ∧ filter isMovement (emitted world s.1) = [GoToFlat; GoToFlat].
Proof.
  cbv zeta.
  assert (∃ s, resumed [0; 1; 0; 0]%nat
                 (spawn (processGesture_async reliable Cbor.encode Cbor.decode
                           presets Right "quadTap")
                    (spawn (processGesture_async reliable Cbor.encode Cbor.decode
                              presets Left "quadTap") (world, []))) = Some s
               ∧ s.2 = []) as (s & Hrun & Hdone)
    by (eexists; split; [lazy; reflexivity | reflexivity]).
  exists s. split; [exact Hrun|]. split; [exact Hdone|].
  exact (base_gestures_in_flight reliable Cbor.encode Cbor.decode presets
           Left "quadTap" Right "quadTap" world _ [0; 1; 0; 0]%nat s
           eq_refl eq_refl eq_refl (λ _ _, eq_refl) Hrun Hdone).
Defined.

(** The pass that fetches [snapshot1] while [snapshot0] is stored: the
    left double tap requests 72, from the stored 70 and not from the
    fetched 90, and no snooze is announced although [snapshot1] reports
    a vibrating alarm and a triple tap.  The same pass while
    [snapshotRightAlarm] is stored announces the snooze of the right
    side. *)
Lemma dispatch_reads_stored_snapshot_witness :
  let pass w :=
    (pollOnce reliable Cbor.encode Cbor.decode presets Pod3 gestures
       (poll snapshot1) w).2 in
  let vibrating := set_deviceStatus (Some snapshotRightAlarm) world in
  targetTemperatureF (ds_left snapshot1) = 90
  ∧ isAlarmVibrating (ds_left snapshot1) = true
  ∧ deviceStatus (pass world) = Some snapshot1
  ∧ UpdateDeviceStatus
      (JObject [("left", JObject [("targetTemperatureF", JNumber 72)])])
    ∈ emitted world (pass world)
  ∧ ((info, TripleTapSnoozing Right) ∉ said world (pass world))
  ∧ ((info, TripleTapSnoozing Right) ∈ said vibrating (pass vibrating))
  ∧ ((info, SnoozingAlarm Right 10) ∈ said vibrating (pass vibrating)).
Proof.
  destruct (dispatch_reads_stored_snapshot reliable Cbor.encode Cbor.decode
              presets Pod3 gestures (poll snapshot1) world snapshot0 snapshot1
              settings eq_refl eq_refl ltac:(discriminate) eq_refl eq_refl
              eq_refl eq_refl) as (Hstored & Htemp & Hquiet & _).
  destruct (dispatch_reads_stored_snapshot reliable Cbor.encode Cbor.decode
              presets Pod3 gestures (poll snapshot1)
              (set_deviceStatus (Some snapshotRightAlarm) world)
              snapshotRightAlarm snapshot1
              settings eq_refl eq_refl ltac:(discriminate) eq_refl eq_refl
              eq_refl eq_refl) as (_ & _ & _ & Hsnooze).
  assert ("doubleTap" ∈ gestures) as Hdouble by left.
  assert ("tripleTap" ∈ gestures) as Htriple by (right; left).
  assert (tapEntry snapshot1 Left "doubleTap" ≠ tapEntry snapshot0 Left "doubleTap")
    as Hne by (vm_compute; discriminate).
  assert (tapEntry snapshot1 Right "tripleTap"
          ≠ tapEntry snapshotRightAlarm Right "tripleTap")
    as Hne' by (vm_compute; discriminate).
  pose proof (Htemp Left "doubleTap" increment 2 Hdouble Hne eq_refl) as Hrequest.
  pose proof (Hquiet eq_refl Right 10) as (Hnone & _).
  pose proof (Hsnooze eq_refl Right "tripleTap" Htriple Hne' eq_refl)
    as (Hannounced & Hsnoozed).
  cbv zeta. split; [reflexivity|]. split; [reflexivity|].
  split; [exact Hstored|]. split; [exact Hrequest|]. split; [exact Hnone|].
  split; [exact Hannounced | exact Hsnoozed].
Defined.
(** ** Further runs on concrete worlds *)


(** A triple tap while [snapshot0], without a vibrating alarm, is
    stored. *)
Lemma alarm_gesture_without_active_alarm_witness :
  processGesture reliable Cbor.encode Cbor.decode presets Left "tripleTap" world
  = (Returned tt, world).
Proof.
  exact (alarm_gesture_without_active_alarm reliable Cbor.encode Cbor.decode
           presets Left "tripleTap" world eq_refl eq_refl).
Defined.

(** Two left double taps between two polls both request 72, from the
    stored 70. *)
Lemma temperature_gestures_share_base_witness :
  let w1 := (processGesture reliable Cbor.encode Cbor.decode presets
               Left "doubleTap" world).2 in
  let w2 := (processGesture reliable Cbor.encode Cbor.decode presets
               Left "doubleTap" w1).2 in
  emitted world w2
  = [UpdateDeviceStatus (temperatureRequest Left 72);
     UpdateDeviceStatus (temperatureRequest Left 72)].
Proof.
  exact (temperature_gestures_share_base reliable Cbor.encode Cbor.decode presets
           Left "doubleTap" "doubleTap" increment 2 increment 2 snapshot0 world
           eq_refl eq_refl eq_refl).
Defined.

(** A quad tap from the flat mode while the actuator is down: the relax
    position is written, the movement rejected, the flag cleared and the
    mode back at flat. *)
Lemma base_gesture_movement_rejected_witness :
  let r := processGesture actuator_down Cbor.encode Cbor.decode presets
             Left "quadTap" world in
  let status moving :=
    Some {| baseStatus := Some
      {| bs_head := 20; bs_feet := 1; isMoving := moving;
         lastUpdate := 1700000000123; isConfigured := true |} |} in
  r.1 = Returned tt
  ∧ currentBasePreset r.2 = flat
  ∧ memoryDB_data r.2 = status false
  ∧ emitted world r.2
    = [MemoryDBWrite (status true); SetPosition (presets relax);
       MemoryDBWrite (status false)]
  ∧ (error, QuadTapFailed "BLE: not connected") ∈ logs r.2.
Proof.
  assert (∀ history d, actuator_down history (MemoryDBWrite d) = None) as Hstore
    by (intros; reflexivity).
  assert (∀ history, actuator_down history (movement presets (toggled flat))
                     = Some "BLE: not connected") as Hmove
    by (intros; reflexivity).
  exact (base_gesture_movement_rejected actuator_down Cbor.encode Cbor.decode
           presets Left "quadTap" world _ "BLE: not connected"
           eq_refl eq_refl Hstore Hmove).
Defined.

(** A quad tap from the flat mode without [memoryDB.data]: the timer is
    armed for the travel from the origin to the relax position, 4000. *)
Lemma base_gesture_without_store_witness :
  let w := set_memoryDB_data None world in
  let r := processGesture reliable Cbor.encode Cbor.decode presets
             Left "quadTap" w in
  memoryDB_data r.2 = None
  ∧ emitted w r.2 = [SetPosition (presets relax); SetTimeout 4000].
Proof.
  apply (base_gesture_without_store reliable Cbor.encode Cbor.decode presets
           Left "quadTap" (set_memoryDB_data None world) eq_refl eq_refl).
  vm_compute. repeat split.
Defined.


(** A quad tap while the actuator is down: a call was rejected, no timer
    is armed and the mode is back at flat. *)
Lemma base_gesture_failure_arms_no_timer_witness :
  let r := processGesture actuator_down Cbor.encode Cbor.decode presets
             Left "quadTap" world in
  ¬ answered actuator_down (trace world) (emitted world r.2)
  ∧ (∀ delay, SetTimeout delay ∉ emitted world r.2)
  ∧ isMoving <$> (memoryDB_data r.2 ≫= baseStatus) ≠ Some true
  ∧ currentBasePreset r.2 = flat.
Proof.
  assert (∃ written cleared,
            emitted world
              (processGesture actuator_down Cbor.encode Cbor.decode presets
                 Left "quadTap" world).2
            = [MemoryDBWrite written; SetPosition (presets relax);
               MemoryDBWrite cleared]) as (written & cleared & Hemitted)
    by (do 2 eexists; vm_compute; reflexivity).
  assert (¬ answered actuator_down (trace world)
              (emitted world
                 (processGesture actuator_down Cbor.encode Cbor.decode presets
                    Left "quadTap" world).2)) as Hrejected.
  { rewrite Hemitted. intros (_ & Hmove & _). discriminate Hmove. }
  destruct (base_gesture_failure_arms_no_timer actuator_down Cbor.encode
              Cbor.decode presets Left "quadTap" world eq_refl Hrejected)
    as (Htimer & Hflag & Hmode).
  cbv zeta. split; [exact Hrejected|]. split; [exact Htimer|].
  split; [exact Hflag|]. apply Hmode. vm_compute. reflexivity.
Defined.

(** The diff of [snapshot1] against the stored [snapshot0]: the left
    side first, then the right side. *)
Lemma processGestures_left_then_right_witness :
  let dispatchAll side :=
    for_of (changedGestures gestures snapshot1 (Some snapshot0) side)
      (λ gesture, detached (processGesture reliable Cbor.encode Cbor.decode
                              presets side gesture)) in
  changedGestures gestures snapshot1 (Some snapshot0) Left = ["doubleTap"; "quadTap"]
  ∧ changedGestures gestures snapshot1 (Some snapshot0) Right = ["tripleTap"]
  ∧ (processGestures reliable Cbor.encode Cbor.decode presets gestures
       snapshot1 world).2
    = (dispatchAll Right (dispatchAll Left world).2).2.
Proof.
  split; [vm_compute; reflexivity|]. split; [vm_compute; reflexivity|].
  exact (processGestures_left_then_right reliable Cbor.encode Cbor.decode presets
           gestures snapshot1 snapshot0 world eq_refl).
Defined.

(** The loop of a Pod 4 starts after a connection and two fetches. *)
Lemma frankenLoop_initial_fetch_witness :
  ∃ w0,
    frankenLoop reliable Cbor.encode Cbor.decode presets Pod3 gestures
      (poll snapshot0) [poll snapshot1] world
    = polling reliable Cbor.encode Cbor.decode presets Pod3 gestures
        [poll snapshot1] w0
    ∧ deviceStatus w0 = Some snapshot0
    ∧ trace w0 = [ConnectFranken; GetDeviceStatus false; GetDeviceStatus true].
Proof.
  destruct (frankenLoop_initial_fetch reliable Cbor.encode Cbor.decode presets
              Pod3 gestures (poll snapshot0) [poll snapshot1] world
              snapshot0 snapshot0 eq_refl eq_refl eq_refl)
    as (w0 & Hloop & _ & Hstored).
  exists w0. split; [exact Hloop | exact Hstored].
Defined.

(** [stop()] during the first wait: the loop ends after that wait and the
    poll that would have followed is not made. *)
Lemma polling_stops_after_wait_witness :
  let r := polling reliable Cbor.encode Cbor.decode presets Pod3 gestures
             [pollStopped; poll snapshot1] world in
  r.1 = Returned tt
  ∧ emitted world r.2 = [Wait 2000]
  ∧ isRunning r.2 = false
  ∧ deviceStatus r.2 = Some snapshot0
  ∧ (debug, LoopExited) ∈ logs r.2.
Proof.
  exact (polling_stops_after_wait reliable Cbor.encode Cbor.decode presets Pod3
           gestures pollStopped [poll snapshot1] world snapshot0
           eq_refl eq_refl eq_refl).
Defined.

(** A refused connection: the failure is published, the pass backs off
    for another 2000 and [snapshot0] stays stored. *)
Lemma pollTurn_failure_backs_off_witness :
  let r := pollTurn reliable Cbor.encode Cbor.decode presets Pod3 gestures
             pollRefused world in
  r.1 = Returned true
  ∧ emitted world r.2 = [Wait 2000; ConnectFranken; Wait 2000]
  ∧ deviceStatus r.2 = Some snapshot0
  ∧ settingsDB_data r.2 = settings
  ∧ frankenMonitorStatus r.2
    = {| status := failed; message := "connect ECONNREFUSED";
         timestamp := 1700000002123 |}
  ∧ isRunning r.2 = true.
Proof.
  assert (connected pollRefused = Thrown "connect ECONNREFUSED"
          ∧ [ConnectFranken] = [ConnectFranken]) as Hrefused
    by (split; reflexivity).
  exact (pollTurn_failure_backs_off reliable Cbor.encode Cbor.decode presets Pod3
           gestures pollRefused world snapshot0 "connect ECONNREFUSED"
           [ConnectFranken] eq_refl eq_refl eq_refl (or_introl Hrefused)).
Defined.

(** The pass that fetches [snapshot1]: healthy, dated after the wait of
    2000. *)
Lemma pollTurn_answered_publishes_healthy_witness :
  let r := pollTurn reliable Cbor.encode Cbor.decode presets Pod3 gestures
             (poll snapshot1) world in
  r.1 = Returned true
  ∧ deviceStatus r.2 = Some snapshot1
  ∧ settingsDB_data r.2 = settings
  ∧ frankenMonitorStatus r.2
    = {| status := healthy; message := ""; timestamp := 1700000002123 |}
  ∧ isRunning r.2 = true.
Proof.
  exact (pollTurn_answered_publishes_healthy reliable Cbor.encode Cbor.decode
           presets Pod3 gestures (poll snapshot1) world snapshot0 snapshot1
           settings eq_refl eq_refl eq_refl eq_refl eq_refl eq_refl).
Defined.

(** With a Pod 3 stored, the pass that fetches [snapshot1], taps and
    vibrating alarm included, dispatches nothing. *)
Lemma pollTurn_without_gestures_witness :
  let w := set_deviceStatus (Some snapshotPod3) world in
  let r := pollTurn reliable Cbor.encode Cbor.decode presets Pod3 gestures
             (poll snapshot1) w in
  emitted w r.2 = [Wait 60000; ConnectFranken; GetDeviceStatus false; SettingsRead]
  ∧ deviceStatus r.2 = Some snapshot1
  ∧ currentBasePreset r.2 = flat
  ∧ memoryDB_data r.2 = memoryDB_data world.
Proof.
  exact (pollTurn_without_gestures reliable Cbor.encode Cbor.decode presets Pod3
           gestures (poll snapshot1) (set_deviceStatus (Some snapshotPod3) world)
           snapshotPod3 snapshot1 settings
           eq_refl eq_refl eq_refl eq_refl eq_refl eq_refl eq_refl).
Defined.




(** A left triple tap while only the alarm of the right side vibrates:
    the snooze of the left side is announced. *)
Lemma alarm_gesture_snoozes_own_side_witness :
  let w := set_deviceStatus (Some snapshotRightAlarm) world in
  let r := processGesture reliable Cbor.encode Cbor.decode presets Left "tripleTap" w in
  isAlarmVibrating (ds_left snapshotRightAlarm) = false
  ∧ r.1 = Thrown "ReferenceError: executeFunction is not defined"
  ∧ emitted w r.2 = []
  ∧ ∃ rest, said w r.2
            = (info, TripleTapSnoozing Left) :: (info, SnoozingAlarm Left 10) :: rest.
Proof.
  cbv zeta. split; [reflexivity|].
  exact (alarm_gesture_snoozes_own_side reliable Cbor.encode Cbor.decode presets
           Left "tripleTap" snapshotRightAlarm
           (set_deviceStatus (Some snapshotRightAlarm) world)
           eq_refl eq_refl eq_refl).
Defined.
